(** * LeetCode Stats Tracker: a shallow embedding of [update_readme.py]

    The script fetches a profile from a GraphQL endpoint, extracts a flat
    record of statistics, renders a README from a fixed template and
    overwrites the output file.  This development embeds the five
    functions of the script ([fetch_leetcode_stats], [parse_stats],
    [generate_readme_content], [create_progress_bar], [update_readme]) and
    [main], together with the fragment of Python they rely on:

    - decoded JSON as the Python values [json.loads] produces ([pyval]);
    - exceptions as an error monad ([result]);
    - Python's [float] as IEEE 754 binary64 with round-to-nearest-even,
      every finite value being an integer multiple of [2^-1074];
    - the process environment, the network, the file system and standard
      output as an explicit world threaded through [main].

    Python [str] values are held as the bytes of their UTF-8 encoding. *)

From Stdlib Require Import ZArith List String Ascii Bool Lia.
From Stdlib Require Import DecimalString.
From Stdlib Require Floats.SpecFloat.
Import ListNotations.

Local Open Scope string_scope.
Local Open Scope Z_scope.

(** ** Exceptions *)

(** The exception classes the script can meet.  [Exception_ msg] is the
    plain [Exception(msg)] the fetcher raises; for built-in errors only
    the class is kept. *)
Inductive exn : Type :=
| Exception_ (msg : string)
| AttributeError
| TypeError
| ValueError
| KeyError (key : string)
| OverflowError
| ZeroDivisionError
| JSONDecodeError
| RequestException
| OSError.

Inductive result (A : Type) : Type :=
| Ok (a : A)
| Raise (e : exn).

Arguments Ok {A} a.
Arguments Raise {A} e.

Definition bind {A B : Type} (m : result A) (k : A -> result B) : result B :=
  match m with
  | Ok a => k a
  | Raise e => Raise e
  end.

Declare Scope py_scope.
Delimit Scope py_scope with py.
Notation "x <- m ;; k" := (bind m (fun x => k))
  (at level 100, m at next level, right associativity) : py_scope.
Local Open Scope py_scope.

Definition is_ok {A : Type} (m : result A) : bool :=
  match m with Ok _ => true | Raise _ => false end.

(** ** Binary64 floating point *)

Module Float.

(** A finite double is [(-1)^neg * mag * 2^-1074] with [0 <= mag < 2^2098]
    and [mag] having at most 53 significant bits. *)
Inductive float : Type :=
| Finite (neg : bool) (mag : Z)
| Inf (neg : bool)
| NaN.

(** Number of units of [2^-1074] in [1.0]. *)
Definition unit : Z := 2 ^ 1074.

(** First magnitude that is no longer finite ([2^1024]). *)
Definition huge : Z := 2 ^ 2098.

(** Nearest integer to [n / d], ties to even ([0 <= n], [0 < d]). *)
Definition rne (n d : Z) : Z :=
  let q := n / d in
  match 2 * (n mod d) ?= d with
  | Lt => q
  | Gt => q + 1
  | Eq => if Z.even q then q else q + 1
  end.

(** Number of low-order bits that do not fit in a 53-bit significand. *)
Definition shift (n d : Z) : Z := Z.max 0 (Z.log2 (n / d) - 52).

(** [n / d] units rounded to the nearest magnitude with 53 significant
    bits, ties to even.  The fixed unit gives gradual underflow. *)
Definition round (n d : Z) : Z :=
  let j := shift n d in
  rne n (d * 2 ^ j) * 2 ^ j.

Definition zero : float := Finite false 0.
Definition one : float := Finite false unit.

(** [float(n)] for a Python int. *)
Definition of_int (n : Z) : result float :=
  let m := round (Z.abs n * unit) 1 in
  if m <? huge then Ok (Finite (n <? 0) m) else Raise OverflowError.

(** [a / b] for two Python ints: the exact quotient, correctly rounded. *)
Definition int_truediv (a b : Z) : result float :=
  if b =? 0 then Raise ZeroDivisionError
  else
    let m := round (Z.abs a * unit) (Z.abs b) in
    if m <? huge then Ok (Finite (xorb (a <? 0) (b <? 0)) m)
    else Raise OverflowError.

Definition mul (x y : float) : float :=
  match x, y with
  | NaN, _ | _, NaN => NaN
  | Inf s, Inf t => Inf (xorb s t)
  | Inf s, Finite t m => if m =? 0 then NaN else Inf (xorb s t)
  | Finite s m, Inf t => if m =? 0 then NaN else Inf (xorb s t)
  | Finite s m, Finite t k =>
      let r := round (m * k) unit in
      if r <? huge then Finite (xorb s t) r else Inf (xorb s t)
  end.

(** [x / y] for two floats; Python raises on a zero divisor. *)
Definition truediv (x y : float) : result float :=
  match y with
  | Finite _ 0 => Raise ZeroDivisionError
  | NaN => Ok NaN
  | Inf t =>
      match x with
      | Finite s _ => Ok (Finite (xorb s t) 0)
      | _ => Ok NaN
      end
  | Finite t k =>
      match x with
      | NaN => Ok NaN
      | Inf s => Ok (Inf (xorb s t))
      | Finite s m =>
          let r := round (m * unit) k in
          Ok (if r <? huge then Finite (xorb s t) r else Inf (xorb s t))
      end
  end.

(** The signed magnitude of a finite float, in units. *)
Definition signed (neg : bool) (mag : Z) : Z := if neg then - mag else mag.

(** [x < y]. *)
Definition ltb (x y : float) : bool :=
  match x, y with
  | NaN, _ | _, NaN => false
  | Inf s, Inf t => s && negb t
  | Inf s, Finite _ _ => s
  | Finite _ _, Inf t => negb t
  | Finite s m, Finite t k => signed s m <? signed t k
  end.

(** [min(x, y)]: the second argument wins only when strictly smaller. *)
Definition min (x y : float) : float := if ltb y x then y else x.

(** [int(x)]: truncation toward zero. *)
Definition to_int (x : float) : result Z :=
  match x with
  | Finite s m => Ok (signed s (m / unit))
  | Inf _ => Raise OverflowError
  | NaN => Raise ValueError
  end.

(** [bool(x)]. *)
Definition truthy (x : float) : bool :=
  match x with
  | Finite _ m => negb (m =? 0)
  | _ => true
  end.

End Float.

(** ** Python values *)

(** What [json.loads] can return, which is also all the script ever holds. *)
#[warnings="-register-all"]
Inductive pyval : Type :=
| PNone
| PBool (b : bool)
| PInt (n : Z)
| PFloat (x : Float.float)
| PStr (s : string)
| PList (items : list pyval)
| PDict (entries : list (string * pyval)).

(** [d.get(key)] on the entries of a dict; [None] when the key is absent.
    The keys of a dict are distinct, so the first binding is the binding. *)
Fixpoint lookup (key : string) (entries : list (string * pyval)) : option pyval :=
  match entries with
  | [] => None
  | (k, v) :: rest => if String.eqb k key then Some v else lookup key rest
  end.

(** [v.get(key, default)]: only a dict has the method. *)
Definition py_get (v : pyval) (key : string) (default : pyval) : result pyval :=
  match v with
  | PDict entries =>
      Ok (match lookup key entries with Some x => x | None => default end)
  | _ => Raise AttributeError
  end.

(** [bool(v)], as used by [if v] and [x if v else y]. *)
Definition py_truthy (v : pyval) : bool :=
  match v with
  | PNone => false
  | PBool b => b
  | PInt n => negb (n =? 0)
  | PFloat x => Float.truthy x
  | PStr s => negb (String.eqb s "")
  | PList items => match items with [] => false | _ => true end
  | PDict entries => match entries with [] => false | _ => true end
  end.

(** [v == s] for a string literal [s]. *)
Definition py_eq_str (v : pyval) (s : string) : bool :=
  match v with
  | PStr t => String.eqb t s
  | _ => false
  end.

(** ** Text *)

Definition dquote : string := String "034"%char "".
Definition newline : string := String "010"%char "".

Fixpoint str_repeat (s : string) (n : nat) : string :=
  match n with
  | O => ""
  | S k => s ++ str_repeat s k
  end.

(** [s * n]: empty when [n] is not positive. *)
Definition str_mul (s : string) (n : Z) : string := str_repeat s (Z.to_nat n).

(** The number of places in [s] where [pat] starts. *)
Fixpoint occurrences (pat s : string) : nat :=
  match s with
  | EmptyString => O
  | String _ rest => ((if prefix pat s then 1 else 0) + occurrences pat rest)%nat
  end.

(** [str(n)] for an int. *)
Definition str_int (n : Z) : string := NilZero.string_of_int (Z.to_int n).

(** Thousands separators in a run of digits. *)
Fixpoint group3 (digits : string) : string :=
  match digits with
  | EmptyString => EmptyString
  | String c rest =>
      let k := String.length rest in
      String c (if negb (Nat.eqb k 0) && Nat.eqb (Nat.modulo k 3) 0
                then "," ++ group3 rest else group3 rest)
  end.

(** [format(n, ',')] for an int. *)
Definition format_int_grouped (n : Z) : string :=
  (if n <? 0 then "-" else "") ++ group3 (str_int (Z.abs n)).

Definition zeros (n : Z) : string := str_mul "0" n.

Fixpoint strip_zeros_rev (s : list ascii) : list ascii :=
  match s with
  | "0"%char :: (_ :: _) as rest => strip_zeros_rev rest
  | _ => s
  end.

(** Trailing zeros removed, one digit always kept. *)
Definition strip_trailing_zeros (s : string) : string :=
  string_of_list_ascii (rev (strip_zeros_rev (rev (list_ascii_of_string s)))).

Module FloatText.
Import Float.

(** [format(x, '.1f')]: the exact value correctly rounded to one decimal,
    ties to even. *)
Definition fixed1 (x : float) : string :=
  match x with
  | NaN => "nan"
  | Inf s => if s then "-inf" else "inf"
  | Finite s m =>
      let tenths := rne (m * 10) unit in
      (if s then "-" else "") ++ str_int (tenths / 10) ++ "." ++ str_int (tenths mod 10)
  end.

(** [round(x, 2)]: the nearest double to the exact value rounded to two
    decimals, ties to even. *)
Definition round2 (x : float) : float :=
  match x with
  | Finite s m => Finite s (round (rne (m * 100) unit * unit) 100)
  | _ => x
  end.

(** The value [c * 10^p], in units, as a fraction. *)
Definition decimal_num (c p : Z) : Z := if 0 <=? p then c * 10 ^ p * unit else c * unit.
Definition decimal_den (p : Z) : Z := if 0 <=? p then 1 else 10 ^ (- p).

(** Does the decimal [c * 10^p] read back as the double of magnitude [m]. *)
Definition reads_back (m c p : Z) : bool :=
  round (decimal_num c p) (decimal_den p) =? m.

(** Largest [e] with [10^e <= m / unit], searched downward from [e]. *)
Fixpoint decimal_exponent (fuel : nat) (e m : Z) : Z :=
  match fuel with
  | O => e
  | S fuel' =>
      if decimal_num 1 e <=? m * decimal_den e then e
      else decimal_exponent fuel' (e - 1) m
  end.

(** An upper estimate of the decimal exponent of [m / unit], from its
    binary exponent and [log10 2 < 0.30103]. *)
Definition exponent_estimate (m : Z) : Z :=
  (Z.log2 m - 1074) * 30103 / 100000 + 2.

(** The shortest decimal that reads back as [m], tried with [n], [n+1], ...
    significant digits; of two candidates of the same length the nearer. *)
Fixpoint shortest (fuel : nat) (n e10 m : Z) : Z * Z :=
  let p := e10 - n + 1 in
  let num := m * decimal_den p in
  let den := decimal_num 1 p in
  let lo := num / den in
  let hi := lo + 1 in
  match fuel with
  | O => (rne num den, p)
  | S fuel' =>
      if num mod den =? 0 then (lo, p)
      else
        match reads_back m lo p, reads_back m hi p with
        | true, true => (rne num den, p)
        | true, false => (lo, p)
        | false, true => (hi, p)
        | false, false => shortest fuel' (n + 1) e10 m
        end
  end.

(** Sign, integer digits and the rest of [repr(x)]. *)
Definition repr_parts (x : float) : string * string * string :=
  match x with
  | NaN => ("", "nan", "")
  | Inf s => (if s then "-" else "", "inf", "")
  | Finite s m =>
      let sign := if s then "-" else "" in
      if m =? 0 then (sign, "0", ".0")
      else
        let '(c, p) := shortest 16 1 (decimal_exponent 6 (exponent_estimate m) m) m in
        let all := str_int c in
        let decpt := Z.of_nat (String.length all) + p in
        let ds := strip_trailing_zeros all in
        let len := Z.of_nat (String.length ds) in
        if (decpt <=? -4) || (16 <? decpt) then
          let e := decpt - 1 in
          let frac := substring 1 (String.length ds - 1) ds in
          (sign, substring 0 1 ds,
           (if Nat.eqb (String.length frac) 0 then "" else "." ++ frac)
           ++ "e" ++ (if e <? 0 then "-" else "+")
           ++ (if Z.abs e <? 10 then "0" else "") ++ str_int (Z.abs e))
        else if decpt <=? 0 then
          (sign, "0", "." ++ zeros (- decpt) ++ ds)
        else if decpt <? len then
          (sign, substring 0 (Z.to_nat decpt) ds,
           "." ++ substring (Z.to_nat decpt) (String.length ds - Z.to_nat decpt) ds)
        else
          (sign, ds ++ zeros (decpt - len), ".0")
  end.

(** [repr(x)], which is also [str(x)]. *)
Definition repr (x : float) : string :=
  let '(sign, int_part, rest) := repr_parts x in sign ++ int_part ++ rest.

(** [format(x, ',')]. *)
Definition format_grouped (x : float) : string :=
  let '(sign, int_part, rest) := repr_parts x in sign ++ group3 int_part ++ rest.

End FloatText.

(** ** Rendering values *)

Definition hex_digit (n : nat) : ascii :=
  nth n (list_ascii_of_string "0123456789abcdef") "0"%char.

Definition contains_char (c : ascii) (s : string) : bool :=
  existsb (Ascii.eqb c) (list_ascii_of_string s).

(** One character of [repr(s)] inside [quote] marks.  Bytes of a multi-byte
    UTF-8 sequence are copied: code points above ASCII are taken to be
    printable. *)
Definition repr_char (quote c : ascii) : string :=
  let n := nat_of_ascii c in
  if Ascii.eqb c "092"%char then String c (String c "")
  else if Ascii.eqb c quote then String "092"%char (String c "")
  else if Ascii.eqb c "010"%char then String "092"%char "n"
  else if Ascii.eqb c "013"%char then String "092"%char "r"
  else if Ascii.eqb c "009"%char then String "092"%char "t"
  else if Nat.ltb n 32 || Nat.eqb n 127 then
    String "092"%char
      (String "x"%char (String (hex_digit (Nat.div n 16)) (String (hex_digit (Nat.modulo n 16)) "")))
  else String c "".

(** [repr(s)] for a string: single quotes unless the text has a single
    quote and no double quote. *)
Definition repr_str (s : string) : string :=
  let quote :=
    if contains_char "'"%char s && negb (contains_char "034"%char s)
    then "034"%char else "'"%char in
  String quote
    (String.concat "" (map (repr_char quote) (list_ascii_of_string s))
     ++ String quote "").

Fixpoint py_repr (v : pyval) : string :=
  match v with
  | PNone => "None"
  | PBool b => if b then "True" else "False"
  | PInt n => str_int n
  | PFloat x => FloatText.repr x
  | PStr s => repr_str s
  | PList items => "[" ++ String.concat ", " (map py_repr items) ++ "]"
  | PDict entries =>
      "{" ++ String.concat ", "
               (map (fun kv : string * pyval => let (k, x) := kv in repr_str k ++ ": " ++ py_repr x)
                    entries)
          ++ "}"
  end.

(** [str(v)], which is what an f-string field [{v}] inserts. *)
Definition py_str (v : pyval) : string :=
  match v with
  | PStr s => s
  | _ => py_repr v
  end.

(** [format(v, ',')], the f-string field [{v:,}]. *)
Definition py_format_grouped (v : pyval) : result string :=
  match v with
  | PInt n => Ok (format_int_grouped n)
  | PBool b => Ok (if b then "1" else "0")
  | PFloat x => Ok (FloatText.format_grouped x)
  | PStr _ => Raise ValueError
  | PNone | PList _ | PDict _ => Raise TypeError
  end.

(** [round(v, 2)]. *)
Definition py_round2 (v : pyval) : result pyval :=
  match v with
  | PInt n => Ok (PInt n)
  | PBool b => Ok (PInt (if b then 1 else 0))
  | PFloat x => Ok (PFloat (FloatText.round2 x))
  | _ => Raise TypeError
  end.

(** The items [for item in v] visits. *)
Definition py_iter (v : pyval) : result (list pyval) :=
  match v with
  | PList items => Ok items
  | PDict entries => Ok (map (fun kv => PStr (fst kv)) entries)
  | PStr s => Ok (map (fun c => PStr (String c "")) (list_ascii_of_string s))
  | _ => Raise TypeError
  end.

(** ** The progress bar *)

(** The two bar glyphs, as the literals stand in the source file. *)
Definition glyph_filled : string := "â–ˆ".
Definition glyph_empty : string := "â–‘".

(** [percentage] is a float on one branch and the int [0] on the other. *)
Inductive number : Type :=
| NInt (n : Z)
| NFloat (x : Float.float).

(** [solved / total]. *)
Definition py_truediv (solved : pyval) (total : Z) : result Float.float :=
  match solved with
  | PInt n => Float.int_truediv n total
  | PBool b => Float.int_truediv (if b then 1 else 0) total
  | PFloat x => t <- Float.of_int total ;; Float.truediv x t
  | _ => Raise TypeError
  end.

(** [n * p] and [p * n] for an int [n]. *)
Definition number_mul_int (p : number) (n : Z) : result number :=
  match p with
  | NInt k => Ok (NInt (n * k))
  | NFloat x => y <- Float.of_int n ;; Ok (NFloat (Float.mul y x))
  end.

(** [int(p)]. *)
Definition number_to_int (p : number) : result Z :=
  match p with
  | NInt k => Ok k
  | NFloat x => Float.to_int x
  end.

(** [format(p, '.1f')]; an int is converted to float first. *)
Definition number_fixed1 (p : number) : result string :=
  match p with
  | NInt k => x <- Float.of_int k ;; Ok (FloatText.fixed1 x)
  | NFloat x => Ok (FloatText.fixed1 x)
  end.

Definition create_progress_bar (solved : pyval) (total length : Z) : result string :=
  percentage <-
    (if 0 <? total
     then q <- py_truediv solved total ;; Ok (NFloat (Float.min q Float.one))
     else Ok (NInt 0)) ;;
  scaled <- number_mul_int percentage length ;;
  filled <- number_to_int scaled ;;
  let empty := length - filled in
  let bar := str_mul glyph_filled filled ++ str_mul glyph_empty empty in
  hundred <- number_mul_int percentage 100 ;;
  pct_text <- number_fixed1 hundred ;;
  Ok ("`" ++ bar ++ "` " ++ pct_text ++ "%").

(** *** The bar as the specification words it

    [percentage = min(solved / total, 1.0)] (or [0] when [total <= 0]),
    [filled = floor(length * percentage)], and the label is
    [percentage * 100] to one decimal.  Magnitudes are in units of
    [2^-1074]; every product and quotient is rounded to a double. *)
Module BarSpec.

Definition percentage (solved total : Z) : Z :=
  if 0 <? total
  then Z.min (Float.round (solved * Float.unit) total) Float.unit
  else 0.

Definition filled (solved total length : Z) : Z :=
  Float.round (length * Float.unit * percentage solved total) Float.unit / Float.unit.

Definition label (solved total : Z) : string :=
  FloatText.fixed1
    (Float.Finite false
       (Float.round (100 * Float.unit * percentage solved total) Float.unit)).

Definition bar (solved total length : Z) : string :=
  let n := filled solved total length in
  let glyphs := str_mul glyph_filled n ++ str_mul glyph_empty (length - n) in
  "`" ++ glyphs ++ "` " ++ label solved total ++ "%".

(** The largest quotient that still rounds to a finite double is just
    below [2^1024 - 2^970]. *)
Definition in_range (solved total : Z) : Prop :=
  total <= 0 \/ solved < (2 ^ 1024 - 2 ^ 970) * total.

End BarSpec.

(** ** The extractor *)

Record StatsRecord : Type := mkStats {
  username : pyval;
  ranking : pyval;
  total_solved : pyval;
  easy_solved : pyval;
  medium_solved : pyval;
  hard_solved : pyval;
  contest_rating : pyval;
  contests_attended : pyval;
  top_percentage : pyval
}.

Definition set_total_solved (v : pyval) (s : StatsRecord) : StatsRecord :=
  mkStats (username s) (ranking s) v (easy_solved s) (medium_solved s) (hard_solved s)
          (contest_rating s) (contests_attended s) (top_percentage s).
Definition set_easy_solved (v : pyval) (s : StatsRecord) : StatsRecord :=
  mkStats (username s) (ranking s) (total_solved s) v (medium_solved s) (hard_solved s)
          (contest_rating s) (contests_attended s) (top_percentage s).
Definition set_medium_solved (v : pyval) (s : StatsRecord) : StatsRecord :=
  mkStats (username s) (ranking s) (total_solved s) (easy_solved s) v (hard_solved s)
          (contest_rating s) (contests_attended s) (top_percentage s).
Definition set_hard_solved (v : pyval) (s : StatsRecord) : StatsRecord :=
  mkStats (username s) (ranking s) (total_solved s) (easy_solved s) (medium_solved s) v
          (contest_rating s) (contests_attended s) (top_percentage s).
Definition set_contest (rating attended top : pyval) (s : StatsRecord) : StatsRecord :=
  mkStats (username s) (ranking s) (total_solved s) (easy_solved s) (medium_solved s)
          (hard_solved s) rating attended top.

(** The body of the loop over the difficulty breakdown. *)
Definition assign_count (stats : StatsRecord) (item : pyval) : result StatsRecord :=
  difficulty <- py_get item "difficulty" (PStr "") ;;
  count <- py_get item "count" (PInt 0) ;;
  Ok (if py_eq_str difficulty "All" then set_total_solved count stats
      else if py_eq_str difficulty "Easy" then set_easy_solved count stats
      else if py_eq_str difficulty "Medium" then set_medium_solved count stats
      else if py_eq_str difficulty "Hard" then set_hard_solved count stats
      else stats).

Fixpoint for_each (items : list pyval) (stats : StatsRecord) : result StatsRecord :=
  match items with
  | [] => Ok stats
  | item :: rest => stats' <- assign_count stats item ;; for_each rest stats'
  end.

(** The [if contest:] block. *)
Definition contest_fields (contest : pyval) (stats : StatsRecord) : result StatsRecord :=
  if py_truthy contest then
    rating <- py_get contest "rating" (PInt 0) ;;
    rounded <- py_round2 rating ;;
    attended <- py_get contest "attendedContestsCount" (PInt 0) ;;
    top_pct <- py_get contest "topPercentage" PNone ;;
    top <- (if py_truthy top_pct
            then r <- py_round2 top_pct ;; Ok (PStr (py_str r ++ "%"))
            else Ok (PStr "N/A")) ;;
    Ok (set_contest rounded attended top stats)
  else Ok stats.

Definition parse_stats (data : pyval) : result StatsRecord :=
  user <- py_get data "matchedUser" (PDict []) ;;
  contest <- py_get data "userContestRanking" (PDict []) ;;
  submit <- py_get user "submitStats" (PDict []) ;;
  submit_stats <- py_get submit "acSubmissionNum" (PList []) ;;
  name <- py_get user "username" (PStr "N/A") ;;
  profile <- py_get user "profile" (PDict []) ;;
  rank <- py_get profile "ranking" (PStr "N/A") ;;
  let stats :=
    mkStats name rank (PInt 0) (PInt 0) (PInt 0) (PInt 0)
            (PStr "N/A") (PStr "N/A") (PStr "N/A") in
  items <- py_iter submit_stats ;;
  stats <- for_each items stats ;;
  contest_fields contest stats.

(** ** The renderer *)

Definition unlines (lines : list string) : string :=
  String.concat "" (map (fun l => l ++ newline) lines).

(** [now] is the UTC time stamp [datetime.now(...).strftime(...)] returns. *)
Definition generate_readme_content (now : string) (stats : StatsRecord) : result string :=
  easy_bar <- create_progress_bar (easy_solved stats) 830 20 ;;
  medium_bar <- create_progress_bar (medium_solved stats) 1750 20 ;;
  hard_bar <- create_progress_bar (hard_solved stats) 750 20 ;;
  ranking_text <- py_format_grouped (ranking stats) ;;
  Ok (unlines
      ["# ğŸ“Š LeetCode Stats Tracker";
       "";
       "![LeetCode Stats](https://img.shields.io/badge/LeetCode-" ++ py_str (username stats) ++ "-orange?style=for-the-badge&logo=leetcode)";
       "";
       "## ğŸ† Profile Statistics";
       "";
       "| Metric | Value |";
       "|--------|-------|";
       "| ğŸ‘¤ **Username** | [" ++ py_str (username stats) ++ "](https://leetcode.com/" ++ py_str (username stats) ++ "/) |";
       "| ğŸ… **Ranking** | #" ++ ranking_text ++ " |";
       "| âœ… **Total Solved** | **" ++ py_str (total_solved stats) ++ "** |";
       "";
       "## ğŸ“ˆ Problem Solving Progress";
       "";
       "| Difficulty | Solved | Progress |";
       "|------------|--------|----------|";
       "| ğŸŸ¢ Easy | " ++ py_str (easy_solved stats) ++ " | " ++ easy_bar ++ " |";
       "| ğŸŸ¡ Medium | " ++ py_str (medium_solved stats) ++ " | " ++ medium_bar ++ " |";
       "| ğŸ”´ Hard | " ++ py_str (hard_solved stats) ++ " | " ++ hard_bar ++ " |";
       "";
       "## ğŸ¯ Contest Statistics";
       "";
       "| Metric | Value |";
       "|--------|-------|";
       "| ğŸ“Š **Contest Rating** | " ++ py_str (contest_rating stats) ++ " |";
       "| ğŸª **Contests Attended** | " ++ py_str (contests_attended stats) ++ " |";
       "| ğŸ“ **Top Percentage** | " ++ py_str (top_percentage stats) ++ " |";
       "";
       "---";
       "";
       "<p align=" ++ dquote ++ "center" ++ dquote ++ ">";
       "  <i>ğŸ¤– This README is automatically updated daily via GitHub Actions</i><br>";
       "  <sub>Last updated: " ++ now ++ "</sub>";
       "</p>";
       "";
       "<!-- LEETCODE_STATS_START -->";
       "<!-- Auto-generated content - Do not edit manually -->";
       "<!-- LEETCODE_STATS_END -->"]).

(** ** The world of a run *)

(** The POST the fetcher sends. *)
Record Request : Type := mkRequest {
  url : string;
  query : string;
  variables_username : string;
  content_type : string;
  referer : string;
  timeout : Z
}.

(** What comes back: nothing (connection error, timeout), or a status code
    with the body as [response.json()] decodes it ([None] when the body is
    not JSON). *)
Inductive Reply : Type :=
| NoReply
| Response (status_code : Z) (json : option pyval).

(** What [open(path, "w")] followed by [write] will do. *)
Inductive FileMode : Type :=
| CanWrite
| OpenFails
| WriteFails.

(** A line on standard output; [LineError e] is the line
    [âŒ Error:] followed by [str(e)]. *)
Inductive Output : Type :=
| Line (line : string)
| LineError (e : exn).

Record World : Type := mkWorld {
  environ : option string;          (* os.environ.get("LEETCODE_USERNAME") *)
  server : nat -> Request -> Reply; (* the reply to the n-th POST of the run *)
  sent : list Request;              (* the POSTs made so far *)
  clock : string;                   (* the formatted UTC time *)
  mode : string -> FileMode;
  files : string -> option string;  (* file contents by path *)
  opened : list string;             (* paths opened for writing so far *)
  stdout : list Output
}.

(** Effectful code: a result and the world it leaves, also when it raises. *)
Definition IO (A : Type) : Type := World -> result A * World.

Definition ret {A : Type} (a : A) : IO A := fun w => (Ok a, w).

Definition lift {A : Type} (m : result A) : IO A := fun w => (m, w).

Definition bindIO {A B : Type} (m : IO A) (k : A -> IO B) : IO B :=
  fun w =>
    match m w with
    | (Ok a, w') => k a w'
    | (Raise e, w') => (Raise e, w')
    end.

Declare Scope io_scope.
Delimit Scope io_scope with io.
Notation "x <~ m ;; k" := (bindIO m (fun x => k))
  (at level 100, m at next level, right associativity) : io_scope.
Notation "m ;;; k" := (bindIO m (fun _ => k))
  (at level 100, right associativity) : io_scope.

Definition print (line : string) : IO unit :=
  fun w =>
    (Ok tt, mkWorld (environ w) (server w) (sent w) (clock w) (mode w) (files w)
                    (opened w) (stdout w ++ [Line line])).

Definition print_error (e : exn) (w : World) : World :=
  mkWorld (environ w) (server w) (sent w) (clock w) (mode w) (files w)
          (opened w) (stdout w ++ [LineError e]).

(** [requests.post(...)]: the request goes out and is answered. *)
Definition post (req : Request) : IO Reply :=
  fun w =>
    (Ok (server w (List.length (sent w)) req),
     mkWorld (environ w) (server w) (sent w ++ [req]) (clock w) (mode w) (files w)
             (opened w) (stdout w)).

Definition write_file (path content : string) (w : World) : World :=
  mkWorld (environ w) (server w) (sent w) (clock w) (mode w)
          (fun p => if String.eqb p path then Some content else files w p)
          (opened w ++ [path]) (stdout w).

(** ** The fetcher *)

Definition graphql_query : string := "
    query getUserProfile($username: String!) {
        matchedUser(username: $username) {
            username
            submitStats: submitStatsGlobal {
                acSubmissionNum {
                    difficulty
                    count
                    submissions
                }
            }
            profile {
                ranking
                reputation
                starRating
            }
        }
        userContestRanking(username: $username) {
            attendedContestsCount
            rating
            globalRanking
            topPercentage
        }
    }
    ".

Definition make_request (username : string) : Request :=
  mkRequest "https://leetcode.com/graphql" graphql_query username
            "application/json" ("https://leetcode.com/" ++ username ++ "/") 10.

(** [key in data]. *)
Definition py_contains (key : string) (data : pyval) : result bool :=
  match data with
  | PDict entries => Ok (match lookup key entries with Some _ => true | None => false end)
  | PList items => Ok (existsb (fun v => py_eq_str v key) items)
  | PStr s => Ok (match index 0 key s with Some _ => true | None => false end)
  | _ => Raise TypeError
  end.

(** [data[key]] for a string key. *)
Definition py_getitem (data : pyval) (key : string) : result pyval :=
  match data with
  | PDict entries =>
      match lookup key entries with
      | Some v => Ok v
      | None => Raise (KeyError key)
      end
  | _ => Raise TypeError
  end.

(** The fetcher after the reply has arrived. *)
Definition read_reply (reply : Reply) : result pyval :=
  match reply with
  | NoReply => Raise RequestException
  | Response status_code json =>
      if negb (status_code =? 200)
      then Raise (Exception_ ("Failed to fetch data: " ++ str_int status_code))
      else
        data <- match json with Some v => Ok v | None => Raise JSONDecodeError end ;;
        has_errors <- py_contains "errors" data ;;
        if has_errors : bool
        then errors <- py_getitem data "errors" ;;
             Raise (Exception_ ("GraphQL Error: " ++ py_str errors))
        else py_getitem data "data"
  end.

Definition fetch_leetcode_stats (username : string) : IO pyval :=
  (reply <~ post (make_request username) ;;
   lift (read_reply reply))%io.

(** ** The writer *)

Definition update_readme (content filepath : string) : IO unit :=
  fun w =>
    match mode w filepath with
    | OpenFails => (Raise OSError, w)
    | WriteFails => (Raise OSError, write_file filepath "" w)
    | CanWrite =>
        print "âœ… README.md updated successfully!" (write_file filepath content w)
    end.

(** ** The orchestrator *)

(** The [try] block of [main]. *)
Definition run_stages (username : string) : IO unit :=
  (raw_data <~ fetch_leetcode_stats username ;;
   stats <~ lift (parse_stats raw_data) ;;
   print "âœ… Successfully fetched stats!" ;;;
   print ("   Total Solved: " ++ py_str (total_solved stats)) ;;;
   print ("   Easy: " ++ py_str (easy_solved stats)
          ++ " | Medium: " ++ py_str (medium_solved stats)
          ++ " | Hard: " ++ py_str (hard_solved stats)) ;;;
   now <~ (fun w => (Ok (clock w), w)) ;;
   readme_content <~ lift (generate_readme_content now stats) ;;
   update_readme readme_content "README.md")%io.

Definition guidance : list Output :=
  [Line "âŒ Error: LEETCODE_USERNAME environment variable not set!";
   Line "Please set it using:";
   Line ("  Windows: $env:LEETCODE_USERNAME = " ++ dquote ++ "your_username" ++ dquote);
   Line ("  Linux/Mac: export LEETCODE_USERNAME=" ++ dquote ++ "your_username" ++ dquote)].

Definition print_all (lines : list Output) (w : World) : World :=
  mkWorld (environ w) (server w) (sent w) (clock w) (mode w) (files w)
          (opened w) (stdout w ++ lines).

(** [not username]: the variable is unset or empty. *)
Definition missing (username : option string) : bool :=
  match username with
  | None => true
  | Some s => String.eqb s ""
  end.

(** [main] returns the exit status of the process. *)
Definition main (w : World) : Z * World :=
  match environ w with
  | None => (1, print_all guidance w)
  | Some username =>
      if missing (Some username) then (1, print_all guidance w)
      else
        match (print ("ğŸ“Š Fetching LeetCode stats for: " ++ username) ;;; run_stages username)%io w with
        | (Ok _, w') => (0, w')
        | (Raise e, w') => (1, print_error e w')
        end
  end.

(** ** Auxiliary notions used by the statements *)

Module FloatSpec.
Import Float.

(** Magnitudes a double can hold exactly: at most 53 significant bits. *)
Definition representable (m : Z) : Prop :=
  exists c e, 0 <= c <= 2 ^ 53 /\ 0 <= e /\ m = c * 2 ^ e.

End FloatSpec.

(** Text without the byte both glyphs start with. *)
Fixpoint plain (s : string) : bool :=
  match s with
  | EmptyString => true
  | String c rest => negb (Ascii.eqb c "195"%char) && plain rest
  end.

(** *** What the extractor reads *)

Module Shape.

(** [v.get(key, default)] when [v] is known to be a dict. *)
Definition field (v : pyval) (key : string) (default : pyval) : pyval :=
  match py_get v key default with
  | Ok x => x
  | Raise _ => default
  end.

(** The list the extractor iterates. *)
Definition breakdown (data : pyval) : result (list pyval) :=
  user <- py_get data "matchedUser" (PDict []) ;;
  submit <- py_get user "submitStats" (PDict []) ;;
  submit_stats <- py_get submit "acSubmissionNum" (PList []) ;;
  py_iter submit_stats.

(** Does the entry carry exactly this difficulty tag. *)
Definition tagged (tag : string) (item : pyval) : bool :=
  py_eq_str (field item "difficulty" (PStr "")) tag.

Definition count_of (item : pyval) : pyval := field item "count" (PInt 0).

Definition untagged (tag : string) (items : list pyval) : bool :=
  forallb (fun item => negb (tagged tag item)) items.

(** The count a tag ends up with: that of the last entry carrying the
    tag, [0] when no entry carries it. *)
Definition assigned (tag : string) (items : list pyval) (v : pyval) : Prop :=
  (untagged tag items = true -> v = PInt 0) /\
  (forall pre item post,
      items = (pre ++ item :: post)%list ->
      tagged tag item = true -> untagged tag post = true ->
      v = count_of item).

(** The [userContestRanking] value the extractor tests. *)
Definition contest_of (data : pyval) : pyval := field data "userContestRanking" (PDict []).

Definition has_key (key : string) (v : pyval) : bool :=
  match v with
  | PDict entries => match lookup key entries with Some _ => true | None => false end
  | _ => false
  end.

Definition is_dict (v : pyval) : bool :=
  match v with PDict _ => true | _ => false end.

Definition is_number (v : pyval) : bool :=
  match v with PInt _ | PFloat _ | PBool _ => true | _ => false end.

Definition list_of_dicts (v : pyval) : bool :=
  match v with PList items => forallb is_dict items | _ => false end.

(** [v] is a dict in which [key] is absent or holds a value accepted by [p]. *)
Definition absent_or (p : pyval -> bool) (v : pyval) (key : string) : bool :=
  match v with
  | PDict entries => match lookup key entries with Some x => p x | None => true end
  | _ => false
  end.

Definition user_shaped (user : pyval) : bool :=
  absent_or (fun submit => absent_or list_of_dicts submit "acSubmissionNum")
            user "submitStats"
  && absent_or is_dict user "profile".

Definition contest_shaped (contest : pyval) : bool :=
  negb (py_truthy contest)
  || (absent_or is_number contest "rating"
      && absent_or (fun top => negb (py_truthy top) || is_number top)
                   contest "topPercentage").

(** The replies the extractor is written for: objects and lists where it
    descends, numbers where it rounds. *)
Definition well_shaped (data : pyval) : bool :=
  absent_or user_shaped data "matchedUser"
  && absent_or contest_shaped data "userContestRanking".

(** The loop on one tag: the count of the last entry carrying it. *)
Fixpoint last_count (tag : string) (items : list pyval) (acc : pyval) : pyval :=
  match items with
  | [] => acc
  | item :: rest =>
      last_count tag rest (if tagged tag item then count_of item else acc)
  end.

End Shape.

(** *** One run of the orchestrator *)

Module Run.

(** The world after the one POST of a run. *)
Definition after_post (username : string) (w : World) : World :=
  mkWorld (environ w) (server w) (sent w ++ [make_request username]) (clock w)
          (mode w) (files w) (opened w) (stdout w).

(** The reply the fetcher gets in world [w]. *)
Definition reply_to (username : string) (w : World) : Reply :=
  server w (List.length (sent w)) (make_request username).

Definition announce (username : string) (w : World) : World :=
  mkWorld (environ w) (server w) (sent w) (clock w) (mode w) (files w) (opened w)
          (stdout w ++ [Line ("ğŸ“Š Fetching LeetCode stats for: " ++ username)]).

Definition say (line : string) (w : World) : World := snd (print line w).

(** The world after the summary lines have been printed. *)
Definition summarised (stats : StatsRecord) (w : World) : World :=
  say ("   Easy: " ++ py_str (easy_solved stats)
       ++ " | Medium: " ++ py_str (medium_solved stats)
       ++ " | Hard: " ++ py_str (hard_solved stats))
    (say ("   Total Solved: " ++ py_str (total_solved stats))
       (say "âœ… Successfully fetched stats!" w)).

(** A stage before the writer raises. *)
Inductive stage_fails (username : string) (w : World) : Prop :=
| fetch_fails e :
    read_reply (reply_to username w) = Raise e -> stage_fails username w
| extraction_fails raw e :
    read_reply (reply_to username w) = Ok raw ->
    parse_stats raw = Raise e -> stage_fails username w
| rendering_fails raw stats e :
    read_reply (reply_to username w) = Ok raw ->
    parse_stats raw = Ok stats ->
    generate_readme_content (clock w) stats = Raise e -> stage_fails username w.

(** All three stages before the writer return. *)
Definition stages_succeed (username : string) (w : World) : Prop :=
  exists raw stats content,
    read_reply (reply_to username w) = Ok raw /\
    parse_stats raw = Ok stats /\
    generate_readme_content (clock w) stats = Ok content.

End Run.

(** *** Sample inputs *)

Module Sample.

(** A float literal [n / 1000] as [json.loads] reads it. *)
Definition thousandths (n : Z) : pyval :=
  PFloat (Float.Finite false (Float.round (n * Float.unit) 1000)).

Definition entry (difficulty : string) (count : Z) : pyval :=
  PDict [("difficulty", PStr difficulty); ("count", PInt count)].

(** The canned reply of the end-to-end test. *)
Definition canned : pyval :=
  PDict
    [("matchedUser",
      PDict [("username", PStr "alice");
             ("submitStats",
              PDict [("acSubmissionNum",
                      PList [entry "All" 500; entry "Easy" 300;
                             entry "Medium" 150; entry "Hard" 50])]);
             ("profile", PDict [("ranking", PInt 123456)])]);
     ("userContestRanking",
      PDict [("attendedContestsCount", PInt 12);
             ("rating", thousandths 1850456);
             ("topPercentage", thousandths 15678)])].

(** The record the extractor makes of [canned]. *)
Definition canned_stats : StatsRecord :=
  mkStats (PStr "alice") (PInt 123456) (PInt 500) (PInt 300) (PInt 150) (PInt 50)
          (PFloat (FloatText.round2
                     (Float.Finite false (Float.round (1850456 * Float.unit) 1000))))
          (PInt 12) (PStr "15.68%").

(** A profile without the ranking. *)
Definition unranked : pyval :=
  PDict [("matchedUser", PDict [("username", PStr "alice")])].

Definition only_all : pyval :=
  PDict [("matchedUser",
          PDict [("submitStats",
                  PDict [("acSubmissionNum", PList [entry "All" 1500])])])].

(** A contest block with neither rating nor attendance. *)
Definition bare_contest : pyval :=
  PDict [("userContestRanking", PDict [("globalRanking", PInt 7)])].

Definition text_percentile : pyval :=
  PDict [("userContestRanking", PDict [("topPercentage", PStr "12.5")])].

Definition world (username : option string) (reply : Reply) : World :=
  mkWorld username (fun _ _ => reply) [] "2024-01-01 00:00:00 UTC"
          (fun _ => CanWrite) (fun _ => Some "previous") [] [].

End Sample.

(** ** Notions used by the further properties *)

(** *** The bar in exact arithmetic *)

Module BarExact.

(** The width of the filled part in exact integer arithmetic. *)
Definition exact_filled (solved total length : Z) : Z :=
  length * Z.min solved total / total.

(** The first and the last count whose exact width is [k]. *)
Definition first_with (total k : Z) : Z := (k * total + 19) / 20.
Definition last_with (total k : Z) : Z := ((k + 1) * total - 1) / 20.

(** The float width agrees with [k] at both ends of the counts of width [k]. *)
Definition ends_agree (total k : Z) : bool :=
  (BarSpec.filled (first_with total k) total 20 =? k)
  && (BarSpec.filled (last_with total k) total 20 =? k).

Definition widths : list Z := map Z.of_nat (seq 0 20).

End BarExact.

(** *** The bar on significands *)

Module BarQuick.
Import BarExact.

(** The binary exponent that brings [solved / total] to 53 bits. *)
Definition scale_of (solved total : Z) : Z :=
  let e := 52 + Z.log2 total - Z.log2 solved in
  if solved * 2 ^ e <? 2 ^ 52 * total then e + 1 else e.

(** The width of the filled part computed on significands alone: [m] is
    the significand of [solved / total], [m2] that of [20 * (solved /
    total)]; the checks say that both have 53 bits. *)
Definition quick_width (solved total k : Z) : bool :=
  let e := scale_of solved total in
  let m := Float.rne (solved * 2 ^ e) total in
  let c := Z.log2 (20 * m) - 52 in
  let m2 := Float.rne (20 * m) (2 ^ c) in
  (0 <=? e) && (e <=? 1074)
  && (2 ^ 52 * total <=? solved * 2 ^ e) && (solved * 2 ^ e <? 2 ^ 53 * total)
  && (0 <=? c) && (2 ^ (52 + c) <=? 20 * m) && (20 * m <? 2 ^ (53 + c))
  && (m2 * 2 ^ c / 2 ^ e =? k).

Definition quick_ends (total k : Z) : bool :=
  ((first_with total k =? 0) && (k =? 0)
   || (0 <? first_with total k) && (first_with total k <=? total)
      && quick_width (first_with total k) total k)
  && (0 <? last_with total k) && (last_with total k <=? total)
  && quick_width (last_with total k) total k.

End BarQuick.

(** *** Replies as the endpoint documents them *)

Module Typical.
Import Shape.

(** A solved count the bar generator accepts: a non-negative int far
    below the range of a float. *)
Definition count_ok (v : pyval) : bool :=
  match v with
  | PInt n => (0 <=? n) && (n <? 2 ^ 1000)
  | _ => false
  end.

(** The ranking the extractor will find. *)
Definition ranking_of (data : pyval) : pyval :=
  field (field (field data "matchedUser" (PDict [])) "profile" (PDict []))
        "ranking" (PStr "N/A").

Definition counts_ok (data : pyval) : bool :=
  match breakdown data with
  | Ok items => forallb (fun item => count_ok (count_of item)) items
  | Raise _ => false
  end.

(** A reply as the endpoint documents it: well shaped, with a numeric
    ranking and every count a non-negative int. *)
Definition typical (data : pyval) : bool :=
  well_shaped data && is_number (ranking_of data) && counts_ok data.

End Typical.

(** *** A successful run *)

Module Scenario.
Import Run.

(** A profile with its counts and ranking, and no contest block. *)
Definition plain_data : pyval :=
  PDict
    [("matchedUser",
      PDict [("username", PStr "alice");
             ("submitStats",
              PDict [("acSubmissionNum",
                      PList [Sample.entry "All" 500; Sample.entry "Easy" 300;
                             Sample.entry "Medium" 150; Sample.entry "Hard" 50])]);
             ("profile", PDict [("ranking", PInt 123456)])])].

(** The record the extractor makes of it. *)
Definition plain_stats : StatsRecord :=
  mkStats (PStr "alice") (PInt 123456) (PInt 500) (PInt 300) (PInt 150) (PInt 50)
          (PStr "N/A") (PStr "N/A") (PStr "N/A").

(** The text of a result, empty when it is an exception. *)
Definition text_of (r : result string) : string :=
  match r with
  | Ok content => content
  | Raise _ => ""
  end.

(** What the renderer makes of that record at the sample time. *)
Definition plain_document : string :=
  text_of (generate_readme_content "2024-01-01 00:00:00 UTC" plain_stats).

(** A reply with that data under its [data] key. *)
Definition good_reply : Reply :=
  Response 200 (Some (PDict [("data", plain_data)])).

(** The record in which every field is at its default. *)
Definition defaults : StatsRecord :=
  mkStats (PStr "N/A") (PStr "N/A") (PInt 0) (PInt 0) (PInt 0) (PInt 0)
          (PStr "N/A") (PStr "N/A") (PStr "N/A").

(** The lines a successful run prints. *)
Definition success_lines (username : string) (stats : StatsRecord) : list Output :=
  [Line ("ğŸ“Š Fetching LeetCode stats for: " ++ username);
   Line "âœ… Successfully fetched stats!";
   Line ("   Total Solved: " ++ py_str (total_solved stats));
   Line ("   Easy: " ++ py_str (easy_solved stats)
         ++ " | Medium: " ++ py_str (medium_solved stats)
         ++ " | Hard: " ++ py_str (hard_solved stats));
   Line "âœ… README.md updated successfully!"].

(** The world in which the writer is called. *)
Definition before_write (username : string) (stats : StatsRecord) (w : World) : World :=
  summarised stats (after_post username (announce username w)).

(** What the renderer makes of the canned record at the sample time. *)
Definition canned_document : string :=
  text_of (generate_readme_content "2024-01-01 00:00:00 UTC" Sample.canned_stats).

End Scenario.

(** *** The standard library's binary64, for comparison *)

Module CrossCheck.
Import Floats.SpecFloat.

(** A magnitude of this development as the standard library writes a
    finite binary64 number. *)
Definition of_spec (x : spec_float) : Float.float :=
  match x with
  | S754_zero s => Float.Finite s 0
  | S754_infinity s => Float.Inf s
  | S754_nan => Float.NaN
  | S754_finite s m e => Float.Finite s (Z.pos m * 2 ^ (e + 1074))
  end.

Definition spec_of_int (n : Z) : spec_float := binary_normalize 53 1024 n 0 false.

Definition same_quotient (ab : Z * Z) : bool :=
  let (a, b) := ab in
  match Float.int_truediv a b with
  | Ok (Float.Finite s m) =>
      match of_spec (SFdiv 53 1024 (spec_of_int a) (spec_of_int b)) with
      | Float.Finite t k => Bool.eqb s t && (m =? k)
      | _ => false
      end
  | _ => false
  end.

Definition same_product (ab : Z * Z) : bool :=
  let (a, b) := ab in
  match Float.int_truediv a b, Float.of_int b with
  | Ok q, Ok y =>
      match Float.mul y q,
            of_spec (SFmul 53 1024 (spec_of_int b)
                           (SFdiv 53 1024 (spec_of_int a) (spec_of_int b))) with
      | Float.Finite s m, Float.Finite t k => Bool.eqb s t && (m =? k)
      | _, _ => false
      end
  | _, _ => false
  end.

End CrossCheck.

(** *** Contest fields: the wording of the specification and two replies *)

Module Contest.
Import Float.





(** A contest block in which the attendance is itself the text [N/A]. *)
Definition text_attendance : pyval :=
  PDict [("userContestRanking", PDict [("attendedContestsCount", PStr "N/A")])].

Definition text_attendance_stats : StatsRecord :=
  mkStats (PStr "N/A") (PStr "N/A") (PInt 0) (PInt 0) (PInt 0) (PInt 0)
          (PInt 0) (PStr "N/A") (PStr "N/A").

End Contest.

(** * Facts *)

(** ** Rounding *)

Module FloatFacts.
Import Float FloatSpec.

Lemma rne_spec n d :
  0 < d ->
  - d <= 2 * n - 2 * d * rne n d <= d /\
  (2 * n - 2 * d * rne n d = d \/ 2 * n - 2 * d * rne n d = - d ->
   Z.even (rne n d) = true).
Proof.
  intros Hd. unfold rne.
  pose proof (Z.div_mod n d ltac:(lia)) as Hdm.
  pose proof (Z.mod_pos_bound n d Hd) as Hr.
  set (q := n / d) in *. set (r := n mod d) in *.
  destruct (Z.compare_spec (2 * r) d) as [He | Hl | Hg].
  - destruct (Z.even q) eqn:Hev.
    + split; [nia | intros _; exact Hev].
    + split; [nia | intros _].
      rewrite Z.even_add, Hev. reflexivity.
  - split; [nia | intros [H | H]; nia].
  - split; [nia | intros [H | H]; nia].
Qed.

Lemma rne_nonneg n d : 0 <= n -> 0 < d -> 0 <= rne n d.
Proof.
  intros Hn Hd. destruct (rne_spec n d Hd) as [[_ Hu] _]. nia.
Qed.

Lemma rne_exact k d : 0 < d -> rne (k * d) d = k.
Proof.
  intros Hd. unfold rne.
  rewrite Z.div_mul by lia. rewrite Z.mod_mul by lia.
  destruct (Z.compare_spec (2 * 0) d); lia.
Qed.

Lemma rne_mono n1 d1 n2 d2 :
  0 < d1 -> 0 < d2 -> n1 * d2 <= n2 * d1 -> rne n1 d1 <= rne n2 d2.
Proof.
  intros H1 H2 Hle.
  destruct (rne_spec n1 d1 H1) as [[Hl1 Hu1] He1].
  destruct (rne_spec n2 d2 H2) as [[Hl2 Hu2] He2].
  set (R1 := rne n1 d1) in *. set (R2 := rne n2 d2) in *.
  destruct (Z_le_gt_dec R1 R2) as [|Hgt]; [assumption | exfalso].
  assert (Hd : 0 < d1 * d2) by nia.
  assert (HA : (2 * R2 + 1) * (d1 * d2) <= 2 * n1 * d2) by nia.
  assert (HB : 2 * n2 * d1 <= (2 * R2 + 1) * (d1 * d2)) by nia.
  assert (E1 : 2 * n1 * d2 = (2 * R2 + 1) * (d1 * d2)) by nia.
  assert (E2 : 2 * n2 * d1 = (2 * R2 + 1) * (d1 * d2)) by nia.
  assert (E1' : 2 * n1 = (2 * R2 + 1) * d1) by nia.
  assert (E2' : 2 * n2 = (2 * R2 + 1) * d2) by nia.
  assert (ER : R1 = R2 + 1) by nia.
  assert (Ev1 : Z.even R1 = true) by (apply He1; right; nia).
  assert (Ev2 : Z.even R2 = true) by (apply He2; left; nia).
  rewrite ER, Z.even_add, Ev2 in Ev1. discriminate.
Qed.

Lemma div_frac_mono n1 d1 n2 d2 :
  0 < d1 -> 0 < d2 -> n1 * d2 <= n2 * d1 -> n1 / d1 <= n2 / d2.
Proof.
  intros H1 H2 Hle.
  apply Z.div_le_lower_bound; [assumption |].
  pose proof (Z.mul_div_le n1 d1 H1). nia.
Qed.

Lemma shift_nonneg n d : 0 <= shift n d.
Proof. unfold shift. lia. Qed.

Lemma shift_mono n1 d1 n2 d2 :
  0 < d1 -> 0 < d2 -> n1 * d2 <= n2 * d1 -> shift n1 d1 <= shift n2 d2.
Proof.
  intros H1 H2 Hle. unfold shift.
  pose proof (Z.log2_le_mono _ _ (div_frac_mono _ _ _ _ H1 H2 Hle)). lia.
Qed.

(** The quotient has at most [53 + shift] bits. *)
Lemma quotient_below n d :
  0 <= n -> 0 < d -> n < d * 2 ^ (53 + shift n d).
Proof.
  intros Hn Hd.
  pose proof (shift_nonneg n d) as Hj.
  assert (Hq : n / d < 2 ^ (53 + shift n d)).
  { destruct (Z.eq_dec (n / d) 0) as [E | E].
    - rewrite E. apply Z.pow_pos_nonneg; lia.
    - assert (0 < n / d) by (pose proof (Z.div_pos n d Hn Hd); lia).
      destruct (Z.log2_spec (n / d) H) as [_ Hup].
      eapply Z.lt_le_trans; [exact Hup |].
      apply Z.pow_le_mono_r; [lia |]. unfold shift. lia. }
  pose proof (Z.div_mod n d ltac:(lia)).
  pose proof (Z.mod_pos_bound n d Hd). nia.
Qed.

(** A positive shift means the quotient has more than 53 bits. *)
Lemma quotient_above n d :
  0 <= n -> 0 < d -> 0 < shift n d -> d * 2 ^ (52 + shift n d) <= n.
Proof.
  intros Hn Hd Hj.
  assert (Hlog : shift n d = Z.log2 (n / d) - 52) by (unfold shift in *; lia).
  assert (Hpos : 0 < n / d).
  { destruct (Z.eq_dec (n / d) 0) as [E | E].
    - rewrite E in Hlog. cbn in Hlog. lia.
    - pose proof (Z.div_pos n d Hn Hd). lia. }
  destruct (Z.log2_spec (n / d) Hpos) as [Hlow _].
  replace (52 + shift n d) with (Z.log2 (n / d)) by lia.
  pose proof (Z.mul_div_le n d Hd). nia.
Qed.

Lemma significand_le n d :
  0 <= n -> 0 < d -> rne n (d * 2 ^ shift n d) <= 2 ^ 53.
Proof.
  intros Hn Hd.
  pose proof (shift_nonneg n d) as Hj.
  assert (Hp : 0 < 2 ^ shift n d) by (apply Z.pow_pos_nonneg; lia).
  pose proof (quotient_below n d Hn Hd) as Hb.
  rewrite Z.pow_add_r in Hb by lia.
  assert (Hm : rne n (d * 2 ^ shift n d)
               <= rne (2 ^ 53 * (d * 2 ^ shift n d)) (d * 2 ^ shift n d))
    by (apply rne_mono; nia).
  rewrite rne_exact in Hm by nia. exact Hm.
Qed.

Lemma significand_ge n d :
  0 <= n -> 0 < d -> 0 < shift n d -> 2 ^ 52 <= rne n (d * 2 ^ shift n d).
Proof.
  intros Hn Hd Hj.
  assert (Hp : 0 < 2 ^ shift n d) by (apply Z.pow_pos_nonneg; lia).
  pose proof (quotient_above n d Hn Hd Hj) as Hb.
  rewrite Z.pow_add_r in Hb by lia.
  assert (Hm : rne (2 ^ 52 * (d * 2 ^ shift n d)) (d * 2 ^ shift n d)
               <= rne n (d * 2 ^ shift n d))
    by (apply rne_mono; nia).
  rewrite rne_exact in Hm by nia. exact Hm.
Qed.

Lemma round_nonneg n d : 0 <= n -> 0 < d -> 0 <= round n d.
Proof.
  intros Hn Hd. unfold round.
  pose proof (shift_nonneg n d) as Hj.
  assert (Hp : 0 < 2 ^ shift n d) by (apply Z.pow_pos_nonneg; lia).
  pose proof (rne_nonneg n (d * 2 ^ shift n d) Hn ltac:(nia)). nia.
Qed.

(** Rounding is monotone in the fraction it rounds. *)
Lemma round_mono n1 d1 n2 d2 :
  0 <= n1 -> 0 < d1 -> 0 < d2 -> n1 * d2 <= n2 * d1 ->
  round n1 d1 <= round n2 d2.
Proof.
  intros Hn1 H1 H2 Hle.
  assert (Hn2 : 0 <= n2) by nia.
  pose proof (shift_mono _ _ _ _ H1 H2 Hle) as Hjj.
  pose proof (shift_nonneg n1 d1) as Hj1.
  assert (Hp1 : 0 < 2 ^ shift n1 d1) by (apply Z.pow_pos_nonneg; lia).
  assert (Hp2 : 0 < 2 ^ shift n2 d2) by (apply Z.pow_pos_nonneg; lia).
  unfold round.
  destruct (Z.eq_dec (shift n1 d1) (shift n2 d2)) as [E | E].
  - rewrite <- E in *.
    apply Z.mul_le_mono_nonneg_r; [lia |].
    apply rne_mono; nia.
  - assert (Hlt : shift n1 d1 + 1 <= shift n2 d2) by lia.
    pose proof (significand_le n1 d1 Hn1 H1) as Hup.
    pose proof (significand_ge n2 d2 Hn2 H2 ltac:(lia)) as Hlow.
    assert (Hpow : 2 * 2 ^ shift n1 d1 <= 2 ^ shift n2 d2).
    { replace (2 * 2 ^ shift n1 d1) with (2 ^ (shift n1 d1 + 1))
        by (rewrite Z.pow_add_r by lia; lia).
      apply Z.pow_le_mono_r; lia. }
    change (2 ^ 53) with (2 * 2 ^ 52) in Hup.
    assert (0 < 2 ^ 52) by lia.
    nia.
Qed.

Lemma representable_shift m :
  representable m -> exists k, m = k * 2 ^ Z.max 0 (Z.log2 m - 52).
Proof.
  intros (c & e & Hc & He & ->).
  destruct (Z.eq_dec c 0) as [-> | Hc0].
  { exists 0. lia. }
  rewrite Z.log2_mul_pow2 by lia.
  destruct (Z.eq_dec c (2 ^ 53)) as [-> | Hc53].
  - rewrite Z.log2_pow2 by lia.
    exists (2 ^ 52). replace (Z.max 0 (e + 53 - 52)) with (e + 1) by lia.
    rewrite Z.pow_add_r by lia. lia.
  - assert (Z.log2 c < 53) by (apply Z.log2_lt_pow2; lia).
    set (j := Z.max 0 (e + Z.log2 c - 52)).
    exists (c * 2 ^ (e - j)).
    rewrite <- Z.mul_assoc, <- Z.pow_add_r by lia.
    f_equal. f_equal. lia.
Qed.

(** A representable magnitude is a fixed point of rounding. *)
Lemma round_exact m D : representable m -> 0 < D -> round (m * D) D = m.
Proof.
  intros Hm HD. unfold round, shift.
  rewrite Z.div_mul by lia.
  destruct (representable_shift m Hm) as [k Hk].
  set (j := Z.max 0 (Z.log2 m - 52)) in *.
  assert (Hp : 0 < 2 ^ j) by (apply Z.pow_pos_nonneg; lia).
  replace (m * D) with (k * (D * 2 ^ j)) by (rewrite Hk at 1; ring).
  rewrite rne_exact by nia. symmetry. exact Hk.
Qed.

Lemma round_representable n d :
  0 <= n -> 0 < d -> representable (round n d).
Proof.
  intros Hn Hd. unfold round.
  pose proof (shift_nonneg n d) as Hj.
  assert (Hp : 0 < 2 ^ shift n d) by (apply Z.pow_pos_nonneg; lia).
  exists (rne n (d * 2 ^ shift n d)), (shift n d).
  repeat split; try lia.
  - apply rne_nonneg; nia.
  - apply significand_le; assumption.
Qed.

Lemma int_representable k : 0 <= k <= 2 ^ 53 -> representable (k * unit).
Proof. intros Hk. exists k, 1074. unfold unit. repeat split; lia. Qed.

Lemma unit_pos : 0 < unit.
Proof. reflexivity. Qed.

(** Below the midpoint between the largest double and [2^1024], rounding
    stays finite. *)
Lemma round_finite n d :
  0 <= n -> 0 < d -> n < (2 ^ 2098 - 2 ^ 2044) * d -> round n d < huge.
Proof.
  intros Hn Hd Hlt.
  pose proof (shift_nonneg n d) as Hj.
  assert (Hq : n / d < 2 ^ 2098).
  { apply Z.div_lt_upper_bound; [assumption |].
    assert (0 < 2 ^ 2044) by (apply Z.pow_pos_nonneg; lia). nia. }
  assert (Hj' : shift n d <= 2045).
  { unfold shift. destruct (Z.eq_dec (n / d) 0) as [E | E].
    - rewrite E. cbn. lia.
    - pose proof (Z.div_pos n d Hn Hd).
      assert (Z.log2 (n / d) < 2098) by (apply Z.log2_lt_pow2; lia). lia. }
  pose proof (significand_le n d Hn Hd) as Hsig.
  unfold round, huge.
  destruct (Z.eq_dec (shift n d) 2045) as [E | E].
  - rewrite E in *.
    destruct (rne_spec n (d * 2 ^ 2045) ltac:(assert (0 < 2 ^ 2045) by (apply Z.pow_pos_nonneg; lia); nia))
      as [[Hlow _] _].
    set (R := rne n (d * 2 ^ 2045)) in *.
    replace (2 ^ 2098) with (2 ^ 53 * 2 ^ 2045) in * by (rewrite <- Z.pow_add_r by lia; reflexivity).
    replace (2 ^ 2044) with (2 ^ 2045 / 2) in Hlt by reflexivity.
    assert (HP : 0 < 2 ^ 2045) by (apply Z.pow_pos_nonneg; lia).
    assert (Hev : 2 ^ 2045 = 2 * (2 ^ 2045 / 2)) by reflexivity.
    generalize dependent (2 ^ 2045). intros P. intros.
    assert (R < 2 ^ 53) by nia.
    nia.
  - assert (Hle : shift n d <= 2044) by lia.
    assert (Hp : 0 < 2 ^ shift n d) by (apply Z.pow_pos_nonneg; lia).
    assert (Hpp : 2 ^ shift n d <= 2 ^ 2044) by (apply Z.pow_le_mono_r; lia).
    replace (2 ^ 2098) with (2 ^ 54 * 2 ^ 2044) by (rewrite <- Z.pow_add_r by lia; reflexivity).
    pose proof (rne_nonneg n (d * 2 ^ shift n d) Hn ltac:(nia)).
    assert (HP : 0 < 2 ^ 2044) by (apply Z.pow_pos_nonneg; lia).
    generalize dependent (2 ^ 2044). intros P. intros.
    nia.
Qed.

Lemma of_int_exact k :
  0 <= k <= 2 ^ 53 -> of_int k = Ok (Finite false (k * unit)).
Proof.
  intros Hk. unfold of_int.
  rewrite Z.abs_eq by lia.
  assert (E : round (k * unit) 1 = k * unit).
  { rewrite <- (Z.mul_1_r (k * unit)) at 1.
    apply round_exact; [apply int_representable; assumption | lia]. }
  cbv zeta. rewrite E.
  assert (Hs : k * unit < huge).
  { unfold unit, huge.
    replace (2 ^ 2098) with (2 ^ 1024 * 2 ^ 1074) by (rewrite <- Z.pow_add_r by lia; reflexivity).
    assert (0 < 2 ^ 1074) by (apply Z.pow_pos_nonneg; lia).
    assert (2 ^ 53 < 2 ^ 1024) by (apply Z.pow_lt_mono_r; lia).
    generalize dependent (2 ^ 1074). generalize dependent (2 ^ 1024). intros. nia. }
  apply Z.ltb_lt in Hs. rewrite Hs.
  replace (k <? 0) with false by (symmetry; apply Z.ltb_ge; lia).
  reflexivity.
Qed.

End FloatFacts.

(** ** Text *)

Lemma append_assoc (a b c : string) : (a ++ b) ++ c = a ++ (b ++ c).
Proof. induction a as [| x a IH]; cbn; [reflexivity | now rewrite IH]. Qed.

Lemma append_nil (a : string) : a ++ "" = a.
Proof. induction a as [| x a IH]; cbn; [reflexivity | now rewrite IH]. Qed.

Lemma plain_app a b : plain (a ++ b) = plain a && plain b.
Proof.
  induction a as [| x a IH]; cbn; [reflexivity |].
  now rewrite IH, andb_assoc.
Qed.

Lemma plain_uint d : plain (NilEmpty.string_of_uint d) = true.
Proof. induction d; cbn; auto. Qed.

Lemma plain_str_int n : plain (str_int n) = true.
Proof.
  unfold str_int, NilZero.string_of_int.
  destruct (Z.to_int n) as [d | d]; cbn;
    unfold NilZero.string_of_uint; destruct d; cbn; auto using plain_uint.
Qed.

Lemma occurrences_plain g s t :
  plain s = true ->
  occurrences (String "195"%char g) (s ++ t) = occurrences (String "195"%char g) t.
Proof.
  induction s as [| c s IH]; intros Hp; [reflexivity |].
  cbn in Hp. apply andb_true_iff in Hp as [Hc Hs].
  change (String c s ++ t) with (String c (s ++ t)).
  cbn [occurrences prefix].
  destruct (ascii_dec "195" c) as [E | _].
  - subst c. discriminate.
  - rewrite IH by assumption. reflexivity.
Qed.

Lemma occurrences_plain_only g s :
  plain s = true -> occurrences (String "195"%char g) s = O.
Proof.
  intros Hp. rewrite <- (append_nil s), occurrences_plain by assumption.
  reflexivity.
Qed.

Lemma filled_in_filled t :
  occurrences glyph_filled (glyph_filled ++ t) = S (occurrences glyph_filled t).
Proof. destruct t; reflexivity. Qed.

Lemma filled_in_empty t :
  occurrences glyph_filled (glyph_empty ++ t) = occurrences glyph_filled t.
Proof. reflexivity. Qed.

Lemma empty_in_empty t :
  occurrences glyph_empty (glyph_empty ++ t) = S (occurrences glyph_empty t).
Proof. destruct t; reflexivity. Qed.

Lemma empty_in_filled t :
  occurrences glyph_empty (glyph_filled ++ t) = occurrences glyph_empty t.
Proof. reflexivity. Qed.

Lemma occurrences_repeat g h n t k :
  (forall u, occurrences g (h ++ u) = (k + occurrences g u)%nat) ->
  occurrences g (str_repeat h n ++ t) = (n * k + occurrences g t)%nat.
Proof.
  intros Hstep. induction n as [| n IH]; [reflexivity |].
  cbn [str_repeat]. rewrite append_assoc, Hstep, IH. lia.
Qed.

(** ** The progress bar *)

Module BarFacts.
Import Float FloatSpec FloatFacts.

Lemma scale_bound : (2 ^ 1024 - 2 ^ 970) * unit = 2 ^ 2098 - 2 ^ 2044.
Proof. reflexivity. Qed.

Lemma round_zero d : 0 < d -> round 0 d = 0.
Proof.
  intros Hd. change 0 with (0 * d) at 1.
  apply round_exact; [| assumption].
  exists 0, 0. lia.
Qed.

Lemma unit_representable : representable unit.
Proof. exists 1, 1074. unfold unit. lia. Qed.

Lemma int_units_below_huge k : 0 <= k <= 2 ^ 53 -> k * unit < huge.
Proof.
  intros Hk. unfold unit, huge.
  replace (2 ^ 2098) with (2 ^ 1024 * 2 ^ 1074)
    by (rewrite <- Z.pow_add_r by lia; reflexivity).
  assert (0 < 2 ^ 1074) by (apply Z.pow_pos_nonneg; lia).
  assert (2 ^ 53 < 2 ^ 1024) by (apply Z.pow_lt_mono_r; lia).
  generalize dependent (2 ^ 1074). generalize dependent (2 ^ 1024).
  intros. nia.
Qed.

#[local] Opaque unit huge round.

Lemma quotient_finite solved total :
  0 <= solved -> 0 < total -> solved < (2 ^ 1024 - 2 ^ 970) * total ->
  round (solved * unit) total < huge.
Proof.
  intros Hs Ht Hlt. pose proof unit_pos.
  apply round_finite; try nia.
  rewrite <- scale_bound.
  generalize dependent (2 ^ 1024 - 2 ^ 970). intros. nia.
Qed.

Lemma int_truediv_nonneg solved total :
  0 <= solved -> 0 < total -> solved < (2 ^ 1024 - 2 ^ 970) * total ->
  int_truediv solved total = Ok (Finite false (round (solved * unit) total)).
Proof.
  intros Hs Ht Hlt. unfold int_truediv.
  replace (total =? 0) with false by (symmetry; apply Z.eqb_neq; lia).
  rewrite !Z.abs_eq by lia. cbv zeta.
  pose proof (quotient_finite _ _ Hs Ht Hlt) as Hf.
  apply Z.ltb_lt in Hf. rewrite Hf.
  replace (solved <? 0) with false by (symmetry; apply Z.ltb_ge; lia).
  replace (total <? 0) with false by (symmetry; apply Z.ltb_ge; lia).
  reflexivity.
Qed.

Lemma min_one p :
  Float.min (Finite false p) one = Finite false (Z.min p unit).
Proof.
  unfold Float.min, ltb, one, signed.
  destruct (unit <? p) eqn:E.
  - apply Z.ltb_lt in E. now rewrite Z.min_r by lia.
  - apply Z.ltb_ge in E. now rewrite Z.min_l by lia.
Qed.

Lemma percentage_bounds solved total :
  0 <= solved -> 0 <= BarSpec.percentage solved total <= unit.
Proof.
  intros Hs. pose proof unit_pos. unfold BarSpec.percentage.
  destruct (0 <? total) eqn:Ht; [| lia].
  apply Z.ltb_lt in Ht.
  pose proof (round_nonneg (solved * unit) total ltac:(nia) Ht). lia.
Qed.

(** Scaling by a percentage never exceeds the scaled quantity. *)
Lemma scaled_le k p :
  0 <= k <= 2 ^ 53 -> 0 <= p <= unit ->
  0 <= round (k * unit * p) unit <= k * unit.
Proof.
  intros Hk Hp. pose proof unit_pos. split.
  - apply round_nonneg; nia.
  - rewrite <- (round_exact (k * unit) unit) at 2
      by (auto using int_representable).
    apply round_mono; nia.
Qed.

Lemma mul_percentage k p :
  0 <= k <= 2 ^ 53 -> 0 <= p <= unit ->
  mul (Finite false (k * unit)) (Finite false p)
  = Finite false (round (k * unit * p) unit).
Proof.
  intros Hk Hp. unfold mul. cbv zeta.
  pose proof (scaled_le k p Hk Hp) as [_ Hle].
  pose proof (int_units_below_huge k Hk) as Hh.
  replace (round (k * unit * p) unit <? huge) with true
    by (symmetry; apply Z.ltb_lt; lia).
  reflexivity.
Qed.

(** On ints in range the code computes the bar of the specification. *)
Lemma create_progress_bar_int solved total length :
  0 <= solved -> 0 < length <= 2 ^ 53 -> BarSpec.in_range solved total ->
  create_progress_bar (PInt solved) total length
  = Ok (BarSpec.bar solved total length).
Proof.
  intros Hs Hl Hr.
  pose proof (percentage_bounds solved total Hs) as Hp.
  unfold create_progress_bar, BarSpec.bar, BarSpec.filled, BarSpec.label.
  unfold BarSpec.percentage in *.
  destruct (0 <? total) eqn:Ht.
  - apply Z.ltb_lt in Ht.
    destruct Hr as [Hr | Hr]; [lia |].
    cbn [py_truediv]. rewrite int_truediv_nonneg by assumption.
    cbn [bind]. rewrite min_one.
    cbn [number_mul_int]. rewrite !of_int_exact by lia. cbn [bind].
    rewrite !mul_percentage by lia.
    cbn [number_to_int to_int signed number_fixed1 bind]. reflexivity.
  - cbn [bind number_mul_int number_to_int number_fixed1].
    rewrite !Z.mul_0_r. rewrite (of_int_exact 0) by lia. cbn [bind].
    rewrite round_zero by apply unit_pos. reflexivity.
Qed.

Lemma percentage_mono solved solved' total :
  0 <= solved <= solved' ->
  BarSpec.percentage solved total <= BarSpec.percentage solved' total.
Proof.
  intros Hs. pose proof unit_pos. unfold BarSpec.percentage.
  destruct (0 <? total) eqn:Ht; [| lia].
  apply Z.ltb_lt in Ht.
  apply Z.min_le_compat_r.
  apply round_mono; try nia.
  apply Z.mul_le_mono_nonneg_r; nia.
Qed.

Lemma percentage_full solved total :
  0 < total <= solved -> BarSpec.percentage solved total = unit.
Proof.
  intros Hs. pose proof unit_pos. unfold BarSpec.percentage.
  replace (0 <? total) with true by (symmetry; apply Z.ltb_lt; lia).
  apply Z.min_r.
  rewrite <- (round_exact unit 1 unit_representable) at 1 by lia.
  apply round_mono; try nia.
Qed.

Lemma percentage_zero total : BarSpec.percentage 0 total = 0.
Proof.
  unfold BarSpec.percentage. pose proof unit_pos.
  destruct (0 <? total) eqn:Ht; [| reflexivity].
  apply Z.ltb_lt in Ht. rewrite Z.mul_0_l, round_zero by assumption. lia.
Qed.

Lemma filled_bounds solved total length :
  0 <= solved -> 0 < length <= 2 ^ 53 ->
  0 <= BarSpec.filled solved total length <= length.
Proof.
  intros Hs Hl. pose proof unit_pos.
  pose proof (percentage_bounds solved total Hs) as Hp.
  pose proof (scaled_le length _ ltac:(lia) Hp) as [Hlo Hhi].
  unfold BarSpec.filled. split.
  - apply Z.div_pos; lia.
  - apply Z.div_le_upper_bound; lia.
Qed.

Lemma filled_mono solved solved' total length :
  0 <= solved <= solved' -> 0 < length ->
  BarSpec.filled solved total length <= BarSpec.filled solved' total length.
Proof.
  intros Hs Hl. pose proof unit_pos.
  pose proof (percentage_mono solved solved' total Hs) as Hm.
  pose proof (percentage_bounds solved total ltac:(lia)) as Hp.
  unfold BarSpec.filled.
  apply Z.div_le_mono; [lia |].
  apply round_mono; try nia.
  apply Z.mul_le_mono_nonneg_r; [lia |].
  apply Z.mul_le_mono_nonneg_l; [nia | exact Hm].
Qed.

Lemma filled_full solved total length :
  0 < total <= solved -> 0 < length <= 2 ^ 53 ->
  BarSpec.filled solved total length = length.
Proof.
  intros Hs Hl. pose proof unit_pos. unfold BarSpec.filled.
  rewrite percentage_full by assumption.
  rewrite round_exact by (auto using int_representable with zarith).
  apply Z.div_mul. lia.
Qed.

Lemma filled_zero total length : BarSpec.filled 0 total length = 0.
Proof.
  unfold BarSpec.filled.
  rewrite percentage_zero, Z.mul_0_r, round_zero by apply unit_pos.
  reflexivity.
Qed.

Lemma label_full solved total :
  0 < total <= solved -> BarSpec.label solved total = "100.0".
Proof.
  intros Hs. unfold BarSpec.label.
  rewrite percentage_full by assumption.
  rewrite round_exact by (auto using int_representable, unit_pos with zarith).
  vm_compute. reflexivity.
Qed.

Lemma label_zero total : BarSpec.label 0 total = "0.0".
Proof.
  unfold BarSpec.label.
  rewrite percentage_zero, Z.mul_0_r, round_zero by apply unit_pos.
  reflexivity.
Qed.

Lemma bar_full solved total length :
  0 < total <= solved -> 0 < length <= 2 ^ 53 ->
  BarSpec.bar solved total length = "`" ++ str_mul glyph_filled length ++ "` 100.0%".
Proof.
  intros Hs Hl. unfold BarSpec.bar. cbv zeta.
  rewrite filled_full, label_full by assumption.
  rewrite Z.sub_diag. change (str_mul glyph_empty 0) with "".
  rewrite append_nil. reflexivity.
Qed.

Lemma bar_zero total length :
  BarSpec.bar 0 total length = "`" ++ str_mul glyph_empty length ++ "` 0.0%".
Proof.
  unfold BarSpec.bar. cbv zeta.
  rewrite filled_zero, label_zero, Z.sub_0_r. reflexivity.
Qed.

(** *** Counting glyphs in a bar *)

Lemma plain_fixed1 m : plain (FloatText.fixed1 (Finite false m)) = true.
Proof.
  unfold FloatText.fixed1. cbv zeta.
  rewrite !plain_app, !plain_str_int. reflexivity.
Qed.

Lemma filled_skips s t :
  plain s = true ->
  occurrences glyph_filled (s ++ t) = occurrences glyph_filled t.
Proof. exact (occurrences_plain _ s t). Qed.

Lemma empty_skips s t :
  plain s = true ->
  occurrences glyph_empty (s ++ t) = occurrences glyph_empty t.
Proof. exact (occurrences_plain _ s t). Qed.

Lemma count_filled f e tail :
  plain tail = true ->
  occurrences glyph_filled
    ("`" ++ (str_repeat glyph_filled f ++ str_repeat glyph_empty e) ++ tail) = f.
Proof.
  intros Hp.
  rewrite (filled_skips "`") by reflexivity.
  rewrite append_assoc.
  rewrite (occurrences_repeat _ _ f _ 1%nat filled_in_filled).
  rewrite (occurrences_repeat _ _ e _ 0%nat filled_in_empty).
  rewrite <- (append_nil tail), filled_skips by assumption.
  cbn. lia.
Qed.

Lemma count_empty f e tail :
  plain tail = true ->
  occurrences glyph_empty
    ("`" ++ (str_repeat glyph_filled f ++ str_repeat glyph_empty e) ++ tail) = e.
Proof.
  intros Hp.
  rewrite (empty_skips "`") by reflexivity.
  rewrite append_assoc.
  rewrite (occurrences_repeat _ _ f _ 0%nat empty_in_filled).
  rewrite (occurrences_repeat _ _ e _ 1%nat empty_in_empty).
  rewrite <- (append_nil tail), empty_skips by assumption.
  cbn. lia.
Qed.

Lemma bar_tail_plain solved total :
  plain ("` " ++ BarSpec.label solved total ++ "%") = true.
Proof.
  unfold BarSpec.label. rewrite !plain_app, plain_fixed1. reflexivity.
Qed.

Lemma bar_filled_glyphs solved total length :
  occurrences glyph_filled (BarSpec.bar solved total length)
  = Z.to_nat (BarSpec.filled solved total length).
Proof. apply count_filled, bar_tail_plain. Qed.

Lemma bar_empty_glyphs solved total length :
  occurrences glyph_empty (BarSpec.bar solved total length)
  = Z.to_nat (length - BarSpec.filled solved total length).
Proof. apply count_empty, bar_tail_plain. Qed.

End BarFacts.

(** ** The extractor *)

(* ---- facts ---- *)
Module ExtractFacts.
Import Shape.

Lemma bind_ok {A B} (m : result A) (k : A -> result B) b :
  bind m k = Ok b -> exists a, m = Ok a /\ k a = Ok b.
Proof. destruct m as [a | e]; cbn; [eauto | discriminate]. Qed.

Ltac invert_bind H :=
  let a := fresh "x" in
  let E := fresh "E" in
  apply bind_ok in H; destruct H as (a & E & H).

Lemma py_get_field v key default x :
  py_get v key default = Ok x -> field v key default = x.
Proof. unfold field. now intros ->. Qed.

Lemma eq_str_exclusive v a b :
  py_eq_str v a = true -> a <> b -> py_eq_str v b = false.
Proof.
  destruct v; cbn; try discriminate.
  intros Ha Hab. apply String.eqb_eq in Ha. subst.
  now apply String.eqb_neq.
Qed.

Lemma assign_count_fields st item st' :
  assign_count st item = Ok st' ->
  total_solved st' = (if tagged "All" item then count_of item else total_solved st) /\
  easy_solved st' = (if tagged "Easy" item then count_of item else easy_solved st) /\
  medium_solved st' = (if tagged "Medium" item then count_of item else medium_solved st) /\
  hard_solved st' = (if tagged "Hard" item then count_of item else hard_solved st) /\
  username st' = username st /\ ranking st' = ranking st /\
  contest_rating st' = contest_rating st /\
  contests_attended st' = contests_attended st /\
  top_percentage st' = top_percentage st.
Proof.
  unfold assign_count. intros H.
  invert_bind H. invert_bind H.
  unfold tagged, count_of.
  rewrite (py_get_field _ _ _ _ E), (py_get_field _ _ _ _ E0).
  injection H as <-.
  destruct (py_eq_str x "All") eqn:HA.
  { rewrite !(eq_str_exclusive x "All") by (assumption || discriminate).
    cbn. repeat split. }
  destruct (py_eq_str x "Easy") eqn:HE.
  { rewrite !(eq_str_exclusive x "Easy") by (assumption || discriminate).
    cbn. repeat split. }
  destruct (py_eq_str x "Medium") eqn:HM.
  { rewrite !(eq_str_exclusive x "Medium") by (assumption || discriminate).
    cbn. repeat split. }
  destruct (py_eq_str x "Hard") eqn:HH; cbn; repeat split.
Qed.

Lemma for_each_fields items : forall st st',
  for_each items st = Ok st' ->
  total_solved st' = last_count "All" items (total_solved st) /\
  easy_solved st' = last_count "Easy" items (easy_solved st) /\
  medium_solved st' = last_count "Medium" items (medium_solved st) /\
  hard_solved st' = last_count "Hard" items (hard_solved st) /\
  username st' = username st /\ ranking st' = ranking st /\
  contest_rating st' = contest_rating st /\
  contests_attended st' = contests_attended st /\
  top_percentage st' = top_percentage st.
Proof.
  induction items as [| item rest IH]; intros st st' H.
  - injection H as <-. cbn. repeat split.
  - cbn [for_each] in H. invert_bind H.
    apply assign_count_fields in E.
    destruct E as (E1 & E2 & E3 & E4 & E5 & E6 & E7 & E8 & E9).
    apply IH in H.
    destruct H as (H1 & H2 & H3 & H4 & H5 & H6 & H7 & H8 & H9).
    cbn [last_count].
    rewrite <- E1, <- E2, <- E3, <- E4, <- E5, <- E6, <- E7, <- E8, <- E9.
    repeat split; assumption.
Qed.

Lemma last_count_untagged tag items : forall acc,
  untagged tag items = true -> last_count tag items acc = acc.
Proof.
  induction items as [| item rest IH]; intros acc H; [reflexivity |].
  cbn in H. apply andb_true_iff in H as [Hi Hr].
  cbn [last_count]. apply negb_true_iff in Hi. rewrite Hi. now apply IH.
Qed.

Lemma last_count_last tag pre : forall item post acc,
  tagged tag item = true -> untagged tag post = true ->
  last_count tag (pre ++ item :: post) acc = count_of item.
Proof.
  induction pre as [| p pre IH]; intros item post acc Ht Hp.
  - cbn [app last_count]. rewrite Ht. now apply last_count_untagged.
  - cbn [app last_count]. now apply IH.
Qed.

Lemma last_count_assigned tag items :
  assigned tag items (last_count tag items (PInt 0)).
Proof.
  split.
  - intros H. now apply last_count_untagged.
  - intros pre item post -> Ht Hp. now apply last_count_last.
Qed.

(** What a successful run of the extractor went through. *)
Lemma parse_stats_inv data s :
  parse_stats data = Ok s ->
  exists items s1,
    breakdown data = Ok items /\
    for_each items
      (mkStats (field (field data "matchedUser" (PDict [])) "username" (PStr "N/A"))
               (field (field (field data "matchedUser" (PDict [])) "profile" (PDict []))
                      "ranking" (PStr "N/A"))
               (PInt 0) (PInt 0) (PInt 0) (PInt 0)
               (PStr "N/A") (PStr "N/A") (PStr "N/A")) = Ok s1 /\
    contest_fields (contest_of data) s1 = Ok s.
Proof.
  unfold parse_stats, breakdown, contest_of. intros H.
  do 9 invert_bind H.
  rewrite E. cbn [bind]. rewrite E1. cbn [bind]. rewrite E2. cbn [bind].
  rewrite E6.
  rewrite (py_get_field _ _ _ _ E), (py_get_field _ _ _ _ E0).
  rewrite (py_get_field _ _ _ _ E3), (py_get_field _ _ _ _ E4).
  rewrite (py_get_field _ _ _ _ E5).
  eauto.
Qed.


Lemma contest_fields_falsy c st :
  py_truthy c = false -> contest_fields c st = Ok st.
Proof. unfold contest_fields. now intros ->. Qed.

Lemma contest_fields_truthy c st s :
  py_truthy c = true -> contest_fields c st = Ok s ->
  py_round2 (field c "rating" (PInt 0)) = Ok (contest_rating s) /\
  contests_attended s = field c "attendedContestsCount" (PInt 0) /\
  (if py_truthy (field c "topPercentage" PNone)
   then exists r, py_round2 (field c "topPercentage" PNone) = Ok r /\
                  top_percentage s = PStr (py_str r ++ "%")
   else top_percentage s = PStr "N/A").
Proof.
  unfold contest_fields. intros -> H.
  do 5 invert_bind H. injection H as <-.
  rewrite (py_get_field _ _ _ _ E), (py_get_field _ _ _ _ E1).
  rewrite (py_get_field _ _ _ _ E2).
  cbn [contest_rating contests_attended top_percentage set_contest].
  repeat split; [assumption |].
  destruct (py_truthy x2).
  - invert_bind E3. injection E3 as <-. eauto.
  - now injection E3 as <-.
Qed.

Lemma contest_fields_counts c st s :
  contest_fields c st = Ok s ->
  total_solved s = total_solved st /\ easy_solved s = easy_solved st /\
  medium_solved s = medium_solved st /\ hard_solved s = hard_solved st.
Proof.
  unfold contest_fields. destruct (py_truthy c).
  - intros H. do 5 invert_bind H. injection H as <-. cbn. auto.
  - intros H. injection H as <-. auto.
Qed.

Lemma field_absent v key default :
  has_key key v = false -> field v key default = default.
Proof.
  unfold field, has_key. destruct v; cbn; auto.
  destruct (lookup key entries); [discriminate | reflexivity].
Qed.


Lemma round2_number v r : py_round2 v = Ok r -> is_number r = true.
Proof.
  destruct v; cbn; intros H; try discriminate; injection H as <-; reflexivity.
Qed.

Lemma for_each_dicts items : forall st,
  forallb is_dict items = true -> exists st', for_each items st = Ok st'.
Proof.
  induction items as [| item rest IH]; intros st H; [cbn; eauto |].
  cbn in H. apply andb_true_iff in H as [Hi Hr].
  destruct item; try discriminate.
  cbn [for_each assign_count py_get bind]. now apply IH.
Qed.

Lemma round2_of_number v : is_number v = true -> exists r, py_round2 v = Ok r.
Proof. destruct v; cbn; try discriminate; eauto. Qed.

Lemma contest_fields_shaped c st :
  contest_shaped c = true -> exists s, contest_fields c st = Ok s.
Proof.
  unfold contest_shaped, contest_fields. intros H.
  destruct (py_truthy c); [| eauto].
  cbn in H. apply andb_true_iff in H as [Hr Ht].
  destruct c as [| | | | | | entries]; try discriminate.
  cbn [py_get bind absent_or] in *.
  destruct (lookup "rating" entries) as [rating |].
  - destruct (round2_of_number _ Hr) as [r ->]. cbn [bind].
    destruct (lookup "topPercentage" entries) as [top |]; cbn; [| eauto].
    destruct (py_truthy top); cbn in *; [| eauto].
    destruct (round2_of_number _ Ht) as [r' ->]. cbn. eauto.
  - cbn [py_round2 bind].
    destruct (lookup "topPercentage" entries) as [top |]; cbn; [| eauto].
    destruct (py_truthy top); cbn in *; [| eauto].
    destruct (round2_of_number _ Ht) as [r' ->]. cbn. eauto.
Qed.

(** The extractor returns a record on every well-shaped reply. *)
Lemma parse_stats_total data :
  well_shaped data = true -> exists s, parse_stats data = Ok s.
Proof.
  unfold well_shaped, parse_stats. intros H.
  apply andb_true_iff in H as [Hu Hc].
  destruct data as [| | | | | | entries]; try discriminate.
  cbn [py_get bind absent_or] in *.
  assert (Hcontest : contest_shaped
            match lookup "userContestRanking" entries with
            | Some x => x | None => PDict [] end = true).
  { destruct (lookup "userContestRanking" entries); [assumption | reflexivity]. }
  assert (Huser : user_shaped
            match lookup "matchedUser" entries with
            | Some x => x | None => PDict [] end = true).
  { destruct (lookup "matchedUser" entries); [assumption | reflexivity]. }
  clear Hu Hc.
  set (user := match lookup "matchedUser" entries with
               | Some x => x | None => PDict [] end) in *.
  set (contest := match lookup "userContestRanking" entries with
                  | Some x => x | None => PDict [] end) in *.
  unfold user_shaped in Huser. apply andb_true_iff in Huser as [Hs Hp].
  destruct user as [| | | | | | uentries]; try discriminate.
  cbn [py_get bind absent_or] in *.
  set (submit := match lookup "submitStats" uentries with
                 | Some x => x | None => PDict [] end).
  assert (Hsubmit : absent_or list_of_dicts submit "acSubmissionNum" = true).
  { subst submit. destruct (lookup "submitStats" uentries); [assumption | reflexivity]. }
  destruct submit as [| | | | | | sentries]; try discriminate.
  cbn [py_get bind absent_or] in *.
  set (profile := match lookup "profile" uentries with
                  | Some x => x | None => PDict [] end).
  assert (Hprofile : is_dict profile = true).
  { subst profile. destruct (lookup "profile" uentries); [assumption | reflexivity]. }
  destruct profile as [| | | | | | pentries]; try discriminate.
  cbn [py_get bind].
  set (listing := match lookup "acSubmissionNum" sentries with
                  | Some x => x | None => PList [] end).
  assert (Hlist : list_of_dicts listing = true).
  { subst listing. destruct (lookup "acSubmissionNum" sentries); [assumption | reflexivity]. }
  destruct listing as [| | | | | items |]; try discriminate.
  cbn [py_iter bind list_of_dicts] in *.
  match goal with
  | |- context [for_each items ?st] =>
      destruct (for_each_dicts items st Hlist) as [s1 ->]
  end.
  cbn [bind]. now apply contest_fields_shaped.
Qed.

End ExtractFacts.

(** ** The fetcher and the orchestrator *)

Module RunFacts.
Import Shape ExtractFacts Run.

Lemma fetch_once username w :
  fetch_leetcode_stats username w
  = (read_reply (reply_to username w), after_post username w).
Proof. reflexivity. Qed.

Lemma read_reply_ok reply v :
  read_reply reply = Ok v <->
  exists entries,
    reply = Response 200 (Some (PDict entries)) /\
    lookup "errors" entries = None /\
    lookup "data" entries = Some v.
Proof.
  split.
  - destruct reply as [| status json]; cbn; [discriminate |].
    destruct (status =? 200) eqn:Hs; cbn; [| discriminate].
    apply Z.eqb_eq in Hs. subst status.
    destruct json as [data |]; cbn; [| discriminate].
    destruct data as [| | | | s | items | entries]; cbn; try discriminate.
    + destruct (index 0 "errors" s); cbn; discriminate.
    + destruct (existsb _ items); cbn; discriminate.
    + destruct (lookup "errors" entries) as [e |] eqn:He; cbn; [discriminate |].
      destruct (lookup "data" entries) as [d |] eqn:Hd; [| discriminate].
      intros [= <-]. eauto.
  - intros (entries & -> & He & Hd). cbn. rewrite He. cbn. now rewrite Hd.
Qed.

Lemma read_reply_status status json :
  status <> 200 ->
  read_reply (Response status json)
  = Raise (Exception_ ("Failed to fetch data: " ++ str_int status)).
Proof.
  intros Hs. cbn. apply Z.eqb_neq in Hs. now rewrite Hs.
Qed.

Lemma read_reply_errors entries errors :
  lookup "errors" entries = Some errors ->
  read_reply (Response 200 (Some (PDict entries)))
  = Raise (Exception_ ("GraphQL Error: " ++ py_str errors)).
Proof. intros He. cbn. now rewrite He. Qed.

Lemma run_stages_unfold username w :
  run_stages username w =
  match read_reply (reply_to username w) with
  | Raise e => (Raise e, after_post username w)
  | Ok raw =>
      match parse_stats raw with
      | Raise e => (Raise e, after_post username w)
      | Ok stats =>
          match generate_readme_content (clock w) stats with
          | Raise e => (Raise e, summarised stats (after_post username w))
          | Ok content =>
              update_readme content "README.md"
                            (summarised stats (after_post username w))
          end
      end
  end.
Proof.
  unfold run_stages, bindIO, fetch_leetcode_stats, bindIO, post, lift.
  fold (reply_to username w).
  destruct (read_reply (reply_to username w)) as [raw | e]; [| reflexivity].
  destruct (parse_stats raw) as [stats | e]; [| reflexivity].
  unfold summarised, say, after_post, print.
  cbn [snd clock].
  destruct (generate_readme_content (clock w) stats); reflexivity.
Qed.

Lemma main_unfold username w :
  environ w = Some username -> missing (Some username) = false ->
  main w =
  match run_stages username (announce username w) with
  | (Ok _, w') => (0, w')
  | (Raise e, w') => (1, print_error e w')
  end.
Proof.
  intros He Hm. unfold main. rewrite He, Hm. reflexivity.
Qed.

Lemma main_missing w :
  missing (environ w) = true -> main w = (1, print_all guidance w).
Proof.
  unfold main. destruct (environ w) as [username |]; [| reflexivity].
  now intros ->.
Qed.

Lemma stage_fails_announce username w :
  stage_fails username w -> stage_fails username (announce username w).
Proof.
  intros [e H | raw e H1 H2 | raw stats e H1 H2 H3];
    [eapply fetch_fails | eapply extraction_fails | eapply rendering_fails]; eauto.
Qed.

Lemma run_stages_failure username w :
  stage_fails username w ->
  exists e w',
    run_stages username w = (Raise e, w') /\
    files w' = files w /\ opened w' = opened w /\
    sent w' = (sent w ++ [make_request username])%list.
Proof.
  intros Hf. rewrite run_stages_unfold.
  destruct Hf as [e H | raw e H1 H2 | raw stats e H1 H2 H3].
  - rewrite H. eauto 6.
  - rewrite H1, H2. eauto 6.
  - rewrite H1, H2, H3. eauto 6.
Qed.

Lemma run_stages_opened username w :
  opened (snd (run_stages username w)) <> opened w -> stages_succeed username w.
Proof.
  rewrite run_stages_unfold. unfold stages_succeed.
  destruct (read_reply (reply_to username w)) as [raw | e] eqn:E1;
    [| intros H; now contradiction H].
  destruct (parse_stats raw) as [stats | e] eqn:E2;
    [| intros H; now contradiction H].
  destruct (generate_readme_content (clock w) stats) as [content | e] eqn:E3;
    [| intros H; now contradiction H].
  intros _. exists raw, stats, content. auto.
Qed.

End RunFacts.

(** * The claims *)

Import FloatSpec Shape Run ExtractFacts RunFacts BarFacts.

(** C1.  A record the extractor produces when the profile carries no
    ranking holds the sentinel ["N/A"] there, and the renderer raises on
    it: the field [{stats['ranking']:,}] cannot group a string. *)
Theorem render_fails_on_sentinel_ranking (now : string) :
  exists stats,
    parse_stats Sample.unranked = Ok stats /\
    ranking stats = PStr "N/A" /\
    generate_readme_content now stats = Raise ValueError.
Proof.
  eexists. split; [reflexivity |]. split; [reflexivity |].
  vm_compute. reflexivity.
Qed.

(** X9.  No record whose ranking is a string renders, whatever its other
    fields hold: the grouping format of the ranking row rejects text. *)
Lemma render_needs_numeric_ranking now stats text content :
  ranking stats = PStr text -> generate_readme_content now stats <> Ok content.
Proof.
  intros Hr. unfold generate_readme_content.
  destruct (create_progress_bar (easy_solved stats) 830 20); [| discriminate].
  destruct (create_progress_bar (medium_solved stats) 1750 20); [| discriminate].
  destruct (create_progress_bar (hard_solved stats) 750 20); [| discriminate].
  cbn [bind]. rewrite Hr. discriminate.
Qed.

(** C2, as amended.  On every well-shaped reply the extractor returns a
    record and raises nothing. *)
Theorem parse_stats_returns_on_well_shaped (data : pyval) :
  well_shaped data = true -> exists stats, parse_stats data = Ok stats.
Proof. apply parse_stats_total. Qed.

Lemma parse_stats_returns_on_well_shaped_witness :
  well_shaped Sample.canned = true /\
  exists stats, parse_stats Sample.canned = Ok stats.
Proof.
  split; [reflexivity |].
  apply (parse_stats_returns_on_well_shaped Sample.canned). reflexivity.
Defined.

(** C2 as stated fails: a percentile given as text makes [round] raise. *)
Lemma parse_stats_raises_on_text_percentile :
  parse_stats Sample.text_percentile = Raise TypeError.
Proof. reflexivity. Qed.

(** A null [matchedUser] is not absent: the default is not used and
    [.get] is called on [None]. *)
Example parse_stats_null_user :
  parse_stats (PDict [("matchedUser", PNone)]) = Raise AttributeError.
Proof. reflexivity. Qed.

(** C3, as amended.  For a non-negative int count within the range of a
    float and a length of at most [2^53], the generator returns the bar of
    the specification: [percentage = min(solved / total, 1.0)] (0 when
    [total <= 0]), [floor(length * percentage)] filled glyphs, the rest
    empty, and the percentage to one decimal.  A count of at least a
    positive total gives 100.0% and only filled glyphs; a count of 0 gives
    0.0% and only empty glyphs. *)
Theorem progress_bar_formula (solved total length : Z) :
  0 <= solved -> 0 < length <= 2 ^ 53 -> BarSpec.in_range solved total ->
  create_progress_bar (PInt solved) total length
  = Ok (BarSpec.bar solved total length)
  /\ (0 < total <= solved ->
      BarSpec.bar solved total length
      = "`" ++ str_mul glyph_filled length ++ "` 100.0%")
  /\ (solved = 0 ->
      BarSpec.bar solved total length
      = "`" ++ str_mul glyph_empty length ++ "` 0.0%").
Proof.
  intros Hs Hl Hr. split; [| split].
  - now apply create_progress_bar_int.
  - intros Ht. now apply bar_full.
  - intros ->. apply bar_zero.
Qed.

Lemma progress_bar_formula_witness :
  0 <= 900 /\ 0 < 20 <= 2 ^ 53 /\ BarSpec.in_range 900 830 /\
  create_progress_bar (PInt 900) 830 20 = Ok (BarSpec.bar 900 830 20) /\
  BarSpec.bar 900 830 20 = "`" ++ str_mul glyph_filled 20 ++ "` 100.0%".
Proof.
  assert (H0 : 0 <= 900) by lia.
  assert (H1 : 0 < 20 <= 2 ^ 53) by lia.
  assert (H2 : BarSpec.in_range 900 830) by (right; reflexivity).
  destruct (progress_bar_formula 900 830 20 H0 H1 H2) as (E & F & _).
  split; [exact H0 |]. split; [exact H1 |]. split; [exact H2 |].
  split; [exact E | apply F; lia].
Defined.

(** C3 as stated fails: the quotient of two ints may be too large for a
    float, and then the division raises. *)
Lemma progress_bar_overflow :
  create_progress_bar (PInt (2 ^ 1024)) 1 20 = Raise OverflowError.
Proof. vm_compute. reflexivity. Qed.

(** C4, as amended.  For non-negative int counts within the range of a
    float, a positive total and a length of at most [2^53], the bar
    returned has exactly [length] glyphs, filled and empty together, and a
    larger count never has fewer filled glyphs. *)
Theorem progress_bar_glyphs (solved solved' total length : Z) :
  0 <= solved <= solved' -> 0 < total -> 0 < length <= 2 ^ 53 ->
  solved' < (2 ^ 1024 - 2 ^ 970) * total ->
  exists bar bar',
    create_progress_bar (PInt solved) total length = Ok bar /\
    create_progress_bar (PInt solved') total length = Ok bar' /\
    Z.of_nat (occurrences glyph_filled bar + occurrences glyph_empty bar) = length /\
    Z.of_nat (occurrences glyph_filled bar' + occurrences glyph_empty bar') = length /\
    (occurrences glyph_filled bar <= occurrences glyph_filled bar')%nat.
Proof.
  intros Hs Ht Hl Hr.
  assert (Hr0 : solved < (2 ^ 1024 - 2 ^ 970) * total).
  { generalize dependent (2 ^ 1024 - 2 ^ 970). intros. nia. }
  exists (BarSpec.bar solved total length), (BarSpec.bar solved' total length).
  pose proof (filled_bounds solved total length ltac:(lia) Hl).
  pose proof (filled_bounds solved' total length ltac:(lia) Hl).
  pose proof (filled_mono solved solved' total length Hs ltac:(lia)).
  assert (Hin : BarSpec.in_range solved total) by (right; exact Hr0).
  assert (Hin' : BarSpec.in_range solved' total) by (right; exact Hr).
  rewrite (create_progress_bar_int solved total length ltac:(lia) Hl Hin).
  rewrite (create_progress_bar_int solved' total length ltac:(lia) Hl Hin').
  rewrite !bar_filled_glyphs, !bar_empty_glyphs.
  split; [reflexivity |]. split; [reflexivity |].
  split; [lia |]. split; lia.
Qed.

Lemma progress_bar_glyphs_witness :
  0 <= 300 <= 301 /\ 0 < 830 /\ 0 < 20 <= 2 ^ 53 /\
  301 < (2 ^ 1024 - 2 ^ 970) * 830 /\
  exists bar bar',
    create_progress_bar (PInt 300) 830 20 = Ok bar /\
    create_progress_bar (PInt 301) 830 20 = Ok bar' /\
    Z.of_nat (occurrences glyph_filled bar + occurrences glyph_empty bar) = 20 /\
    Z.of_nat (occurrences glyph_filled bar' + occurrences glyph_empty bar') = 20 /\
    (occurrences glyph_filled bar <= occurrences glyph_filled bar')%nat.
Proof.
  assert (H0 : 0 <= 300 <= 301) by lia.
  assert (H1 : 0 < 830) by lia.
  assert (H2 : 0 < 20 <= 2 ^ 53) by lia.
  assert (H3 : 301 < (2 ^ 1024 - 2 ^ 970) * 830) by reflexivity.
  split; [exact H0 |]. split; [exact H1 |]. split; [exact H2 |].
  split; [exact H3 |].
  exact (progress_bar_glyphs 300 301 830 20 H0 H1 H2 H3).
Defined.

(** C4 as stated fails: for a count too large for a float the division
    raises and no string is returned. *)
Lemma progress_bar_no_string :
  create_progress_bar (PInt (10 ^ 400)) 830 20 = Raise OverflowError.
Proof. vm_compute. reflexivity. Qed.

(** C5, as amended.  The fetcher sends exactly one request whatever comes
    back.  It returns [v] exactly when the status is 200 and the body is an
    object without an [errors] key whose [data] key holds [v]; any other
    status raises with the status code in the message; an [errors] key in
    a 200 object body raises with the payload in the message. *)
Theorem fetch_contract (username : string) (w : World) :
  fetch_leetcode_stats username w
  = (read_reply (reply_to username w), after_post username w)
  /\ (forall v,
        read_reply (reply_to username w) = Ok v <->
        exists entries,
          reply_to username w = Response 200 (Some (PDict entries)) /\
          lookup "errors" entries = None /\
          lookup "data" entries = Some v)
  /\ (forall status json,
        reply_to username w = Response status json -> status <> 200 ->
        read_reply (reply_to username w)
        = Raise (Exception_ ("Failed to fetch data: " ++ str_int status)))
  /\ (forall entries errors,
        reply_to username w = Response 200 (Some (PDict entries)) ->
        lookup "errors" entries = Some errors ->
        read_reply (reply_to username w)
        = Raise (Exception_ ("GraphQL Error: " ++ py_str errors))).
Proof.
  split; [apply fetch_once |]. split; [| split].
  - intros v. apply read_reply_ok.
  - intros status json -> Hs. now apply read_reply_status.
  - intros entries errors -> He. now apply read_reply_errors.
Qed.

(** C5 as stated fails: status 200 and no [errors] key, yet nothing is
    returned, because the body has no [data] key either. *)
Lemma fetch_without_data_key :
  fst (fetch_leetcode_stats "alice"
         (Sample.world (Some "alice") (Response 200 (Some (PDict [])))))
  = Raise (KeyError "data").
Proof. reflexivity. Qed.

(** C6.  After the loop each count is that of the last entry carrying
    its tag and [0] when no entry carries it; entries with other tags
    change nothing. *)
Theorem difficulty_counts (data : pyval) (stats : StatsRecord) :
  parse_stats data = Ok stats ->
  exists items,
    breakdown data = Ok items /\
    assigned "All" items (total_solved stats) /\
    assigned "Easy" items (easy_solved stats) /\
    assigned "Medium" items (medium_solved stats) /\
    assigned "Hard" items (hard_solved stats) /\
    (items = [Sample.entry "All" 1500] ->
     total_solved stats = PInt 1500 /\ easy_solved stats = PInt 0 /\
     medium_solved stats = PInt 0 /\ hard_solved stats = PInt 0).
Proof.
  intros H.
  destruct (parse_stats_inv data stats H) as (items & s1 & Hb & Hloop & Hc).
  apply for_each_fields in Hloop.
  destruct Hloop as (H1 & H2 & H3 & H4 & _).
  apply contest_fields_counts in Hc. destruct Hc as (C1 & C2 & C3 & C4).
  cbn [total_solved easy_solved medium_solved hard_solved] in H1, H2, H3, H4.
  exists items. rewrite C1, C2, C3, C4, H1, H2, H3, H4.
  split; [assumption |].
  repeat (split; [apply last_count_assigned |]).
  intros ->. repeat split.
Qed.

Lemma difficulty_counts_witness :
  exists stats,
    parse_stats Sample.only_all = Ok stats /\
    total_solved stats = PInt 1500 /\ easy_solved stats = PInt 0 /\
    medium_solved stats = PInt 0 /\ hard_solved stats = PInt 0.
Proof.
  eexists. split; [reflexivity |].
  destruct (difficulty_counts Sample.only_all _ eq_refl)
    as (items & Hb & _ & _ & _ & _ & Hone).
  apply Hone. injection Hb as <-. reflexivity.
Defined.


Lemma canned_parsed : parse_stats Sample.canned = Ok Sample.canned_stats.
Proof. vm_compute. reflexivity. Qed.



(** C8.  With the variable unset or empty, [main] prints the four lines of
    guidance (the error line, "Please set it using:" and the two commands
    that set the variable), returns 1 and sends nothing; no file is
    opened or changed. *)
Theorem missing_username_exits (w : World) :
  missing (environ w) = true ->
  fst (main w) = 1 /\
  stdout (snd (main w))
  = (stdout w ++
     [Line "âŒ Error: LEETCODE_USERNAME environment variable not set!";
      Line "Please set it using:";
      Line ("  Windows: $env:LEETCODE_USERNAME = " ++ dquote ++ "your_username" ++ dquote);
      Line ("  Linux/Mac: export LEETCODE_USERNAME=" ++ dquote ++ "your_username" ++ dquote)])%list /\
  sent (snd (main w)) = sent w /\
  files (snd (main w)) = files w /\
  opened (snd (main w)) = opened w.
Proof.
  intros H. rewrite (main_missing w H).
  split; [reflexivity |]. split; [reflexivity |]. split; [reflexivity |].
  split; reflexivity.
Qed.

Lemma missing_username_exits_witness :
  missing (environ (Sample.world None NoReply)) = true /\
  fst (main (Sample.world None NoReply)) = 1 /\
  stdout (snd (main (Sample.world None NoReply)))
  = [Line "âŒ Error: LEETCODE_USERNAME environment variable not set!";
     Line "Please set it using:";
     Line ("  Windows: $env:LEETCODE_USERNAME = " ++ dquote ++ "your_username" ++ dquote);
     Line ("  Linux/Mac: export LEETCODE_USERNAME=" ++ dquote ++ "your_username" ++ dquote)] /\
  sent (snd (main (Sample.world None NoReply))) = [].
Proof.
  split; [reflexivity |].
  destruct (missing_username_exits (Sample.world None NoReply) eq_refl)
    as (H1 & H2 & H3 & _).
  split; [exact H1 |]. split; [exact H2 | exact H3].
Defined.

(** C9.  When the fetcher, the extractor or the renderer raises, [main]
    returns 1 and the files are as they were, none having been opened;
    a file is opened only in a run whose three stages all returned. *)
Theorem no_write_on_failure (w : World) (username : string) :
  environ w = Some username -> missing (Some username) = false ->
  (stage_fails username w ->
   fst (main w) = 1 /\
   files (snd (main w)) = files w /\
   opened (snd (main w)) = opened w)
  /\ (opened (snd (main w)) <> opened w -> stages_succeed username w).
Proof.
  intros He Hm. rewrite (main_unfold username w He Hm). split.
  - intros Hf. apply stage_fails_announce in Hf.
    destruct (run_stages_failure _ _ Hf) as (e & w' & -> & Hfiles & Hopened & _).
    cbn. auto.
  - intros Ho.
    assert (Hrun : opened (snd (run_stages username (announce username w)))
                   <> opened (announce username w)).
    { destruct (run_stages username (announce username w)) as [[u | e] w'];
        exact Ho. }
    apply run_stages_opened in Hrun.
    destruct Hrun as (raw & st & content & H1 & H2 & H3).
    exists raw, st, content. auto.
Qed.

Lemma no_write_on_failure_witness :
  let w := Sample.world (Some "alice") (Response 403 None) in
  environ w = Some "alice" /\ missing (Some "alice") = false /\
  stage_fails "alice" w /\
  fst (main w) = 1 /\ files (snd (main w)) = files w /\
  opened (snd (main w)) = opened w.
Proof.
  intros w.
  assert (Hf : stage_fails "alice" w)
    by (eapply fetch_fails; reflexivity).
  split; [reflexivity |]. split; [reflexivity |]. split; [exact Hf |].
  exact (proj1 (no_write_on_failure w "alice" eq_refl eq_refl) Hf).
Defined.

(** C10, as amended.  When the contest block is truthy, a missing
    [rating] gives the rating 0 and a missing [attendedContestsCount] the
    attendance 0; the rating is then never ["N/A"], and the attendance is
    the upstream value as it came, so it reads ["N/A"] only if the reply
    holds that very text.  When the block is falsy (absent, null or
    empty) the three contest fields keep ["N/A"]. *)
Theorem contest_defaults (data : pyval) (stats : StatsRecord) :
  parse_stats data = Ok stats ->
  let contest := contest_of data in
  (py_truthy contest = true ->
   (has_key "rating" contest = false -> contest_rating stats = PInt 0) /\
   (has_key "attendedContestsCount" contest = false ->
    contests_attended stats = PInt 0) /\
   contest_rating stats <> PStr "N/A" /\
   contests_attended stats = field contest "attendedContestsCount" (PInt 0))
  /\ (py_truthy contest = false ->
      contest_rating stats = PStr "N/A" /\
      contests_attended stats = PStr "N/A" /\
      top_percentage stats = PStr "N/A").
Proof.
  intros H contest.
  destruct (parse_stats_inv data stats H) as (items & s1 & _ & Hloop & Hc).
  apply for_each_fields in Hloop.
  destruct Hloop as (_ & _ & _ & _ & _ & _ & H7 & H8 & H9).
  cbn [contest_rating contests_attended top_percentage] in H7, H8, H9.
  fold contest in Hc. split.
  - intros Ht.
    destruct (contest_fields_truthy _ _ _ Ht Hc) as (Hr & Ha & _).
    split; [| split; [| split]].
    + intros Hk. rewrite (field_absent _ _ _ Hk) in Hr. now injection Hr.
    + intros Hk. now rewrite Ha, (field_absent _ _ _ Hk).
    + intros E. apply round2_number in Hr. rewrite E in Hr. discriminate.
    + exact Ha.
  - intros Ht. rewrite (contest_fields_falsy _ _ Ht) in Hc.
    injection Hc as <-. auto.
Qed.

Lemma contest_defaults_witness :
  exists stats,
    parse_stats Sample.bare_contest = Ok stats /\
    contest_rating stats = PInt 0 /\ contests_attended stats = PInt 0.
Proof.
  eexists. split; [reflexivity |].
  destruct (contest_defaults Sample.bare_contest _ eq_refl) as (Ht & _).
  destruct (Ht eq_refl) as (Hr & Ha & _).
  split; [apply Hr | apply Ha]; reflexivity.
Defined.

(** C10 as stated fails for the attendance: the block is present and not
    empty, and the field still reads ["N/A"], because that is the value
    the reply holds and the extractor copies it. *)
Lemma attendance_sentinel_from_upstream :
  py_truthy (contest_of Contest.text_attendance) = true /\
  parse_stats Contest.text_attendance = Ok Contest.text_attendance_stats /\
  contests_attended Contest.text_attendance_stats = PStr "N/A".
Proof. split; [reflexivity |]. split; reflexivity. Qed.

(** * Further facts *)

(** ** The bar generator at its edges *)

Module BarEdge.
Import Float FloatSpec FloatFacts BarFacts BarExact.

Lemma bind_raise {A B} (m : result A) (k : A -> result B) e :
  bind m k = Raise e ->
  m = Raise e \/ exists a, m = Ok a /\ k a = Raise e.
Proof. destruct m as [a | e']; cbn; [eauto | intros [= ->]; auto]. Qed.

Lemma of_int_raises n e : of_int n = Raise e -> e = OverflowError.
Proof.
  unfold of_int. cbv zeta.
  destruct (_ <? huge); [discriminate | now intros [= <-]].
Qed.

Lemma of_int_finite n x : of_int n = Ok x -> exists m, x = Finite (n <? 0) m.
Proof.
  unfold of_int. cbv zeta.
  destruct (_ <? huge); [intros [= <-]; eauto | discriminate].
Qed.

Lemma of_int_positive n s m : 0 < n -> of_int n = Ok (Finite s m) -> unit <= m.
Proof.
  intros Hn. unfold of_int. cbv zeta.
  destruct (_ <? huge); [| discriminate].
  intros [= _ <-]. rewrite Z.abs_eq by lia.
  pose proof unit_pos.
  rewrite <- (round_exact unit 1 unit_representable) at 1 by lia.
  apply round_mono; nia.
Qed.

Lemma int_truediv_raises a b e :
  b <> 0 -> int_truediv a b = Raise e -> e = OverflowError.
Proof.
  intros Hb. unfold int_truediv.
  replace (b =? 0) with false by (symmetry; now apply Z.eqb_neq).
  cbv zeta. destruct (_ <? huge); [discriminate | now intros [= <-]].
Qed.

Lemma truediv_nonzero x s m : 0 < m -> exists q, truediv x (Finite s m) = Ok q.
Proof.
  intros Hm. unfold truediv.
  destruct m as [| p | p]; try lia.
  destruct x; eauto.
Qed.

Lemma py_truediv_raises solved total e :
  0 < total -> py_truediv solved total = Raise e ->
  e = TypeError \/ e = OverflowError.
Proof.
  intros Ht. pose proof unit_pos as Hu.
  destruct solved; cbn [py_truediv]; try (intros [= <-]; auto; fail).
  - intros H. apply int_truediv_raises in H; [auto | lia].
  - intros H. apply int_truediv_raises in H; [auto | lia].
  - intros H. apply bind_raise in H as [H | (t & Ht' & H)].
    + apply of_int_raises in H. auto.
    + destruct (of_int_finite _ _ Ht') as [m ->].
      pose proof (of_int_positive _ _ _ Ht Ht').
      destruct (truediv_nonzero x (total <? 0) m ltac:(lia)) as [q Hq].
      congruence.
Qed.

Lemma number_mul_int_raises p n e :
  number_mul_int p n = Raise e -> e = OverflowError.
Proof.
  destruct p; cbn; [discriminate |].
  intros H. apply bind_raise in H as [H | (y & _ & H)]; [| discriminate].
  now apply of_int_raises in H.
Qed.

Lemma number_to_int_raises p e :
  number_to_int p = Raise e -> e = OverflowError \/ e = ValueError.
Proof.
  destruct p as [k | x]; cbn; [discriminate |].
  destruct x; cbn; try discriminate; intros [= <-]; auto.
Qed.

Lemma number_fixed1_raises p e :
  number_fixed1 p = Raise e -> e = OverflowError.
Proof.
  destruct p; cbn; [| discriminate].
  intros H. apply bind_raise in H as [H | (y & _ & H)]; [| discriminate].
  now apply of_int_raises in H.
Qed.

(** The only exceptions the bar generator can raise. *)
Lemma create_progress_bar_raises solved total length e :
  create_progress_bar solved total length = Raise e ->
  e = TypeError \/ e = OverflowError \/ e = ValueError.
Proof.
  unfold create_progress_bar. intros H.
  apply bind_raise in H as [H | (p & _ & H)].
  { destruct (0 <? total) eqn:Ht; [| discriminate].
    apply Z.ltb_lt in Ht.
    apply bind_raise in H as [H | (q & _ & H)]; [| discriminate].
    apply py_truediv_raises in H; [tauto | assumption]. }
  apply bind_raise in H as [H | (scaled & _ & H)].
  { apply number_mul_int_raises in H. auto. }
  apply bind_raise in H as [H | (filled & _ & H)].
  { apply number_to_int_raises in H. tauto. }
  cbv zeta in H.
  apply bind_raise in H as [H | (hundred & _ & H)].
  { apply number_mul_int_raises in H. auto. }
  apply bind_raise in H as [H | (text & _ & H)]; [| discriminate].
  apply number_fixed1_raises in H. auto.
Qed.

Lemma create_progress_bar_no_total solved total length :
  total <= 0 ->
  create_progress_bar solved total length
  = Ok ("`" ++ str_mul glyph_empty length ++ "` 0.0%").
Proof.
  intros Ht. unfold create_progress_bar.
  replace (0 <? total) with false by (symmetry; apply Z.ltb_ge; lia).
  cbn [bind number_mul_int number_to_int number_fixed1].
  rewrite !Z.mul_0_r, Z.sub_0_r.
  rewrite (of_int_exact 0) by lia. reflexivity.
Qed.

Lemma threshold_rounds_up : round ((2 ^ 1024 - 2 ^ 970) * unit) 1 = huge.
Proof. vm_compute. reflexivity. Qed.

#[local] Opaque unit huge round.

Lemma int_truediv_overflow solved total :
  0 < total -> (2 ^ 1024 - 2 ^ 970) * total <= solved ->
  int_truediv solved total = Raise OverflowError.
Proof.
  intros Ht Hs. pose proof unit_pos.
  assert (Hpos : 0 <= 2 ^ 1024 - 2 ^ 970) by (vm_compute; discriminate).
  unfold int_truediv.
  replace (total =? 0) with false by (symmetry; apply Z.eqb_neq; lia).
  cbv zeta.
  assert (Hge : huge <= round (Z.abs solved * unit) (Z.abs total)).
  { rewrite <- threshold_rounds_up.
    generalize dependent (2 ^ 1024 - 2 ^ 970). intros B HB HB0.
    rewrite !Z.abs_eq by nia.
    apply round_mono; nia. }
  replace (_ <? huge) with false by (symmetry; apply Z.ltb_ge; exact Hge).
  reflexivity.
Qed.

Lemma create_progress_bar_overflow solved total length :
  0 < total -> (2 ^ 1024 - 2 ^ 970) * total <= solved ->
  create_progress_bar (PInt solved) total length = Raise OverflowError.
Proof.
  intros Ht Hs. unfold create_progress_bar.
  replace (0 <? total) with true by (symmetry; apply Z.ltb_lt; lia).
  cbn [py_truediv]. now rewrite int_truediv_overflow.
Qed.

End BarEdge.

Module BarQuickFacts.
Import Float FloatSpec FloatFacts BarFacts BarExact BarEdge BarQuick.

Lemma rne_scale n d c : 0 < d -> 0 < c -> rne (n * c) (d * c) = rne n d.
Proof.
  intros Hd Hc. unfold rne.
  rewrite Z.div_mul_cancel_r, Z.mul_mod_distr_r by lia.
  set (r := n mod d).
  destruct (Z.compare_spec (2 * r) d), (Z.compare_spec (2 * (r * c)) (d * c));
    try reflexivity; nia.
Qed.

(** Rounding once the number of bits of the quotient is known. *)
Lemma round_at n d j :
  0 < d -> 0 <= j -> d * 2 ^ (52 + j) <= n < d * 2 ^ (53 + j) ->
  round n d = rne n (d * 2 ^ j) * 2 ^ j.
Proof.
  intros Hd Hj [Hlo Hhi].
  assert (Hs : shift n d = j).
  { unfold shift.
    assert (Hlog : Z.log2 (n / d) = 52 + j).
    { apply Z.log2_unique; [lia |]. split.
      - apply Z.div_le_lower_bound; lia.
      - apply Z.div_lt_upper_bound; [lia |].
        replace (Z.succ (52 + j)) with (53 + j) by lia. lia. }
    lia. }
  unfold round. now rewrite Hs.
Qed.

#[local] Opaque unit huge round.

Lemma unit_split e : 0 <= e <= 1074 -> unit = 2 ^ e * 2 ^ (1074 - e).
Proof.
  intros He. rewrite <- Z.pow_add_r by lia.
  replace (e + (1074 - e)) with 1074 by lia. reflexivity.
Qed.

Lemma quick_width_sound solved total k :
  0 < total -> 0 < solved <= total -> quick_width solved total k = true ->
  BarSpec.filled solved total 20 = k.
Proof.
  intros Ht Hs. unfold quick_width. cbv zeta.
  set (e := scale_of solved total).
  set (m := rne (solved * 2 ^ e) total).
  set (c := Z.log2 (20 * m) - 52).
  set (m2 := rne (20 * m) (2 ^ c)).
  intros H. repeat (apply andb_true_iff in H as [H ?]).
  repeat match goal with
         | Hb : (_ <=? _) = true |- _ => apply Z.leb_le in Hb
         | Hb : (_ <? _) = true |- _ => apply Z.ltb_lt in Hb
         | Hb : (_ =? _) = true |- _ => apply Z.eqb_eq in Hb
         end.
  pose proof unit_pos as Hu.
  set (g := 1074 - e).
  assert (Hg : 0 <= g) by (subst g; lia).
  assert (Pg : 0 < 2 ^ g) by (apply Z.pow_pos_nonneg; lia).
  assert (Pe : 0 < 2 ^ e) by (apply Z.pow_pos_nonneg; lia).
  assert (Pc : 0 < 2 ^ c) by (apply Z.pow_pos_nonneg; lia).
  assert (Ug : unit = 2 ^ e * 2 ^ g) by (apply unit_split; lia).
  (* the quotient *)
  assert (Hq : round (solved * unit) total = m * 2 ^ g).
  { assert (F1 : total * 2 ^ (52 + g) = 2 ^ 52 * total * 2 ^ g)
      by (rewrite Z.pow_add_r by lia; ring).
    assert (F2 : total * 2 ^ (53 + g) = 2 ^ 53 * total * 2 ^ g)
      by (rewrite Z.pow_add_r by lia; ring).
    assert (F3 : solved * unit = solved * 2 ^ e * 2 ^ g) by (rewrite Ug; ring).
    rewrite (round_at _ _ g).
    - rewrite F3, rne_scale by assumption. reflexivity.
    - assumption.
    - assumption.
    - rewrite F1, F2, F3. split.
      + apply Z.mul_le_mono_nonneg_r; [lia | assumption].
      + apply Z.mul_lt_mono_pos_r; assumption. }
  assert (Hp : BarSpec.percentage solved total = m * 2 ^ g).
  { unfold BarSpec.percentage.
    replace (0 <? total) with true by (symmetry; apply Z.ltb_lt; lia).
    rewrite Hq. apply Z.min_l. rewrite <- Hq.
    rewrite <- (round_exact unit 1 unit_representable) at 2 by lia.
    apply round_mono; [| lia | lia |].
    + apply Z.mul_nonneg_nonneg; lia.
    + rewrite Z.mul_1_r. rewrite (Z.mul_comm unit 1), Z.mul_1_l, (Z.mul_comm unit total).
      apply Z.mul_le_mono_nonneg_r; lia. }
  (* the product *)
  unfold BarSpec.filled. rewrite Hp.
  assert (PU : 0 < unit * 2 ^ g) by (apply Z.mul_pos_pos; assumption).
  assert (E1 : unit * 2 ^ (52 + (c + g)) = 2 ^ (52 + c) * (unit * 2 ^ g)).
  { replace (52 + (c + g)) with (52 + c + g) by lia.
    rewrite (Z.pow_add_r 2 (52 + c) g) by lia. ring. }
  assert (E2 : unit * 2 ^ (53 + (c + g)) = 2 ^ (53 + c) * (unit * 2 ^ g)).
  { replace (53 + (c + g)) with (53 + c + g) by lia.
    rewrite (Z.pow_add_r 2 (53 + c) g) by lia. ring. }
  assert (E3 : 20 * unit * (m * 2 ^ g) = 20 * m * (unit * 2 ^ g)) by ring.
  assert (E4 : unit * 2 ^ (c + g) = 2 ^ c * (unit * 2 ^ g))
    by (rewrite Z.pow_add_r by lia; ring).
  rewrite (round_at _ _ (c + g)).
  - rewrite E3, E4, rne_scale by assumption. fold m2.
    rewrite Z.pow_add_r by lia.
    replace (m2 * (2 ^ c * 2 ^ g)) with (m2 * 2 ^ c * 2 ^ g) by ring.
    rewrite Ug at 1. rewrite Z.div_mul_cancel_r by lia.
    assumption.
  - exact Hu.
  - lia.
  - rewrite E1, E2, E3. split.
    + apply Z.mul_le_mono_nonneg_r; [lia | assumption].
    + apply Z.mul_lt_mono_pos_r; assumption.
Qed.

Lemma quick_ends_sound total k :
  0 < total -> quick_ends total k = true -> ends_agree total k = true.
Proof.
  intros Ht. unfold quick_ends, ends_agree. intros H.
  apply andb_true_iff in H as [H Hlast].
  apply andb_true_iff in H as [H Hle].
  apply andb_true_iff in H as [Hfirst Hpos].
  apply Z.ltb_lt in Hpos. apply Z.leb_le in Hle.
  apply andb_true_iff. split; apply Z.eqb_eq.
  - apply orb_true_iff in Hfirst as [H0 | H1].
    + apply andb_true_iff in H0 as [E0 Ek].
      apply Z.eqb_eq in E0, Ek. rewrite E0, Ek. apply filled_zero.
    + apply andb_true_iff in H1 as [H1 Hw].
      apply andb_true_iff in H1 as [Hp Hl].
      apply Z.ltb_lt in Hp. apply Z.leb_le in Hl.
      apply quick_width_sound; [assumption | lia | assumption].
  - apply quick_width_sound; [assumption | lia | assumption].
Qed.

Lemma quick_all total :
  0 < total -> forallb (quick_ends total) widths = true ->
  forallb (ends_agree total) widths = true.
Proof.
  intros Ht H. rewrite forallb_forall in *.
  intros k Hk. apply quick_ends_sound; auto.
Qed.

End BarQuickFacts.

Module BarExactFacts.
Import Float FloatSpec FloatFacts BarFacts BarExact BarEdge BarQuick BarQuickFacts.

Lemma widths_in k : 0 <= k < 20 -> In k widths.
Proof.
  intros Hk. unfold widths.
  rewrite <- (Z2Nat.id k) by lia.
  apply in_map, in_seq. lia.
Qed.

Lemma ends_agree_830 : forallb (ends_agree 830) widths = true.
Proof. apply quick_all; [lia | vm_compute; reflexivity]. Qed.

Lemma ends_agree_1750 : forallb (ends_agree 1750) widths = true.
Proof. apply quick_all; [lia | vm_compute; reflexivity]. Qed.

Lemma ends_agree_750 : forallb (ends_agree 750) widths = true.
Proof. apply quick_all; [lia | vm_compute; reflexivity]. Qed.

(** Between the two ends of a width the float computation cannot leave
    it, because it is monotone in the count. *)
Lemma filled_exact_below total solved :
  forallb (ends_agree total) widths = true ->
  0 <= solved < total ->
  BarSpec.filled solved total 20 = 20 * solved / total.
Proof.
  intros Hall Hs.
  set (k := 20 * solved / total).
  assert (Hk : 0 <= k < 20).
  { subst k. split.
    - apply Z.div_pos; lia.
    - apply Z.div_lt_upper_bound; lia. }
  assert (Hlow : k * total <= 20 * solved).
  { subst k. rewrite Z.mul_comm. apply Z.mul_div_le. lia. }
  assert (Hup : 20 * solved < (k + 1) * total).
  { subst k. pose proof (Z.mul_succ_div_gt (20 * solved) total ltac:(lia)). lia. }
  rewrite forallb_forall in Hall.
  specialize (Hall k (widths_in k Hk)).
  unfold ends_agree in Hall. apply andb_true_iff in Hall as [Hf Hl].
  apply Z.eqb_eq in Hf, Hl.
  assert (Hfirst : 0 <= first_with total k <= solved).
  { unfold first_with. split.
    - apply Z.div_pos; nia.
    - apply Z.lt_succ_r, Z.div_lt_upper_bound; lia. }
  assert (Hlast : solved <= last_with total k).
  { unfold last_with. apply Z.div_le_lower_bound; lia. }
  pose proof (filled_mono (first_with total k) solved total 20 ltac:(lia) ltac:(lia)).
  pose proof (filled_mono solved (last_with total k) total 20 ltac:(lia) ltac:(lia)).
  lia.
Qed.

Lemma filled_exact total solved :
  forallb (ends_agree total) widths = true ->
  0 < total -> 0 <= solved ->
  BarSpec.filled solved total 20 = exact_filled solved total 20.
Proof.
  intros Hall Ht Hs. unfold exact_filled.
  destruct (Z_lt_le_dec solved total) as [Hlt | Hge].
  - rewrite Z.min_l by lia. apply filled_exact_below; [assumption | lia].
  - rewrite Z.min_r by lia. rewrite Z.div_mul by lia.
    apply filled_full; lia.
Qed.

End BarExactFacts.

Module BarNegative.
Import Float FloatSpec FloatFacts BarFacts BarEdge.

#[local] Opaque unit huge round.

Lemma plain_fixed1_signed s m : plain (FloatText.fixed1 (Finite s m)) = true.
Proof.
  unfold FloatText.fixed1. cbv zeta.
  rewrite !plain_app, !plain_str_int. now destruct s.
Qed.

Lemma mul_scaled s t k p :
  0 <= k <= 2 ^ 53 -> 0 <= p <= unit ->
  mul (Finite s (k * unit)) (Finite t p)
  = Finite (xorb s t) (round (k * unit * p) unit).
Proof.
  intros Hk Hp. unfold mul. cbv zeta.
  pose proof (scaled_le k p Hk Hp) as [_ Hle].
  pose proof (int_units_below_huge k Hk) as Hh.
  replace (round (k * unit * p) unit <? huge) with true
    by (symmetry; apply Z.ltb_lt; lia).
  reflexivity.
Qed.

(** The magnitude of [solved / total] for a negative count no larger
    than the total. *)
Lemma deficit_bounds solved total :
  0 < total -> - total <= solved < 0 ->
  0 <= round (- solved * unit) total <= unit.
Proof.
  intros Ht Hs. pose proof unit_pos. split.
  - apply round_nonneg; nia.
  - rewrite <- (round_exact unit 1 unit_representable) at 2 by lia.
    apply round_mono; nia.
Qed.

Lemma int_truediv_negative solved total :
  0 < total -> - total <= solved < 0 ->
  int_truediv solved total = Ok (Finite true (round (- solved * unit) total)).
Proof.
  intros Ht Hs. unfold int_truediv.
  replace (total =? 0) with false by (symmetry; apply Z.eqb_neq; lia).
  rewrite (Z.abs_neq solved), (Z.abs_eq total) by lia. cbv zeta.
  pose proof (deficit_bounds solved total Ht Hs) as [_ Hle].
  pose proof (int_units_below_huge 1 ltac:(lia)) as Hh.
  replace (_ <? huge) with true by (symmetry; apply Z.ltb_lt; lia).
  replace (solved <? 0) with true by (symmetry; apply Z.ltb_lt; lia).
  replace (total <? 0) with false by (symmetry; apply Z.ltb_ge; lia).
  reflexivity.
Qed.

Lemma min_one_negative m :
  0 <= m -> Float.min (Finite true m) one = Finite true m.
Proof.
  intros Hm. pose proof unit_pos. unfold Float.min, ltb, one, signed.
  now replace (unit <? - m) with false by (symmetry; apply Z.ltb_ge; lia).
Qed.

(** The bar of a negative count: the filled part is empty and the empty
    part is longer than [length]. *)
Lemma create_progress_bar_negative solved total length :
  0 < total -> - total <= solved < 0 -> 0 < length <= 2 ^ 53 ->
  exists extra label,
    0 <= extra <= length /\ plain label = true /\
    create_progress_bar (PInt solved) total length
    = Ok ("`" ++ (str_mul glyph_filled (- extra)
                  ++ str_mul glyph_empty (length + extra))
              ++ "` " ++ label ++ "%").
Proof.
  intros Ht Hs Hl. pose proof unit_pos.
  pose proof (deficit_bounds solved total Ht Hs) as Hm.
  set (m := round (- solved * unit) total) in *.
  pose proof (scaled_le length m ltac:(lia) Hm) as [Hlo Hhi].
  exists (round (length * unit * m) unit / unit).
  exists (FloatText.fixed1 (Finite true (round (100 * unit * m) unit))).
  split; [| split].
  - split; [apply Z.div_pos; lia | apply Z.div_le_upper_bound; lia].
  - apply plain_fixed1_signed.
  - unfold create_progress_bar.
    replace (0 <? total) with true by (symmetry; apply Z.ltb_lt; lia).
    cbn [py_truediv]. rewrite int_truediv_negative by assumption.
    fold m. cbn [bind]. rewrite min_one_negative by lia.
    cbn [number_mul_int]. rewrite !of_int_exact by lia. cbn [bind].
    rewrite !mul_scaled by lia.
    cbn [number_to_int to_int signed number_fixed1 bind xorb].
    rewrite Z.sub_opp_r. reflexivity.
Qed.

End BarNegative.

(** ** The extractor and the renderer at their edges *)

Module ExtractEdge.
Import Shape ExtractFacts BarEdge Typical.

Lemma py_get_raises v key default e :
  py_get v key default = Raise e -> e = AttributeError.
Proof. destruct v; cbn; try discriminate; now intros [= <-]. Qed.

Lemma py_get_not_dict v key default :
  is_dict v = false -> py_get v key default = Raise AttributeError.
Proof. destruct v; cbn; try reflexivity; discriminate. Qed.

Lemma py_round2_raises v e : py_round2 v = Raise e -> e = TypeError.
Proof. destruct v; cbn; try discriminate; now intros [= <-]. Qed.

Lemma py_iter_raises v e : py_iter v = Raise e -> e = TypeError.
Proof. destruct v; cbn; try discriminate; now intros [= <-]. Qed.

Lemma assign_count_raises st item e :
  assign_count st item = Raise e -> e = AttributeError.
Proof.
  unfold assign_count. intros H.
  apply bind_raise in H as [H | (d & _ & H)]; [now apply py_get_raises in H |].
  apply bind_raise in H as [H | (c & _ & H)]; [now apply py_get_raises in H |].
  discriminate.
Qed.

Lemma for_each_raises items : forall st e,
  for_each items st = Raise e -> e = AttributeError.
Proof.
  induction items as [| item rest IH]; intros st e H; [discriminate |].
  cbn [for_each] in H.
  apply bind_raise in H as [H | (st' & _ & H)]; [now apply assign_count_raises in H |].
  now apply IH in H.
Qed.

Lemma contest_fields_raises c st e :
  contest_fields c st = Raise e -> e = AttributeError \/ e = TypeError.
Proof.
  unfold contest_fields. destruct (py_truthy c); [| discriminate].
  intros H.
  apply bind_raise in H as [H | (rating & _ & H)];
    [left; now apply py_get_raises in H |].
  apply bind_raise in H as [H | (rounded & _ & H)];
    [right; now apply py_round2_raises in H |].
  apply bind_raise in H as [H | (attended & _ & H)];
    [left; now apply py_get_raises in H |].
  apply bind_raise in H as [H | (top & _ & H)];
    [left; now apply py_get_raises in H |].
  apply bind_raise in H as [H | (text & _ & H)]; [| discriminate].
  destruct (py_truthy top); [| discriminate].
  apply bind_raise in H as [H | (r & _ & H)]; [| discriminate].
  right. now apply py_round2_raises in H.
Qed.

Lemma parse_stats_raises data e :
  parse_stats data = Raise e -> e = AttributeError \/ e = TypeError.
Proof.
  unfold parse_stats. intros H.
  repeat match type of H with
         | bind (py_get _ _ _) _ = Raise _ =>
             apply bind_raise in H as [H | (? & _ & H)];
             [left; now apply py_get_raises in H |]
         end.
  apply bind_raise in H as [H | (items & _ & H)];
    [right; now apply py_iter_raises in H |].
  apply bind_raise in H as [H | (st & _ & H)];
    [left; now apply for_each_raises in H |].
  now apply contest_fields_raises in H.
Qed.

Lemma parse_stats_user_not_dict entries user :
  lookup "matchedUser" entries = Some user -> is_dict user = false ->
  parse_stats (PDict entries) = Raise AttributeError.
Proof.
  intros Hu Hd. unfold parse_stats. cbn [py_get bind]. rewrite Hu.
  now rewrite (py_get_not_dict user "submitStats" _ Hd).
Qed.

Lemma contest_fields_identity c st s :
  contest_fields c st = Ok s ->
  username s = username st /\ ranking s = ranking st.
Proof.
  unfold contest_fields. destruct (py_truthy c).
  - intros H. do 5 invert_bind H. injection H as <-. cbn. auto.
  - intros H. injection H as <-. auto.
Qed.

Lemma parse_stats_identity data stats :
  parse_stats data = Ok stats ->
  username stats = field (field data "matchedUser" (PDict [])) "username" (PStr "N/A")
  /\ ranking stats = ranking_of data.
Proof.
  intros H.
  destruct (parse_stats_inv data stats H) as (items & s1 & _ & Hloop & Hc).
  apply for_each_fields in Hloop.
  destruct Hloop as (_ & _ & _ & _ & H5 & H6 & _).
  apply contest_fields_identity in Hc as [C1 C2].
  cbn [username ranking] in H5, H6. unfold ranking_of.
  split; congruence.
Qed.

Lemma last_count_ok tag items : forall acc,
  forallb (fun item => count_ok (count_of item)) items = true ->
  count_ok acc = true -> count_ok (last_count tag items acc) = true.
Proof.
  induction items as [| item rest IH]; intros acc Hall Hacc; [assumption |].
  cbn in Hall. apply andb_true_iff in Hall as [Hi Hr].
  cbn [last_count]. apply IH; [assumption |].
  now destruct (tagged tag item).
Qed.

Lemma parse_stats_counts_ok data stats :
  counts_ok data = true -> parse_stats data = Ok stats ->
  count_ok (easy_solved stats) = true /\
  count_ok (medium_solved stats) = true /\
  count_ok (hard_solved stats) = true.
Proof.
  unfold counts_ok. intros Hok H.
  destruct (parse_stats_inv data stats H) as (items & s1 & Hb & Hloop & Hc).
  rewrite Hb in Hok.
  apply for_each_fields in Hloop.
  destruct Hloop as (_ & H2 & H3 & H4 & _).
  apply contest_fields_counts in Hc as (_ & C2 & C3 & C4).
  cbn [easy_solved medium_solved hard_solved] in H2, H3, H4.
  rewrite C2, C3, C4, H2, H3, H4.
  repeat split; now apply last_count_ok.
Qed.

End ExtractEdge.

Module RenderFacts.
Import Shape BarFacts BarEdge Typical.

Lemma count_ok_bar v total length :
  count_ok v = true -> 750 <= total -> 0 < length <= 2 ^ 53 ->
  exists bar, create_progress_bar v total length = Ok bar.
Proof.
  intros Hv Ht Hl. destruct v as [| | n | | | |]; try discriminate.
  cbn in Hv. apply andb_true_iff in Hv as [H0 H1].
  apply Z.leb_le in H0. apply Z.ltb_lt in H1.
  exists (BarSpec.bar n total length).
  apply create_progress_bar_int; [assumption | assumption |].
  right.
  assert (Hb : 2 ^ 1000 <= 2 ^ 1024 - 2 ^ 970) by (vm_compute; discriminate).
  assert (Ha : 0 < 2 ^ 1000) by (apply Z.pow_pos_nonneg; lia).
  eapply Z.lt_le_trans; [exact H1 |].
  eapply Z.le_trans; [exact Hb |].
  clear H1.
  set (A := 2 ^ 1000) in *. set (B := 2 ^ 1024 - 2 ^ 970) in *.
  clearbody A B.
  assert (0 <= B * (total - 1)) by (apply Z.mul_nonneg_nonneg; lia).
  lia.
Qed.

Lemma format_grouped_number v :
  is_number v = true -> exists text, py_format_grouped v = Ok text.
Proof. destruct v; cbn; try discriminate; eauto. Qed.

(** Rendering returns once the ranking is a number and the three counts
    are acceptable to the bar generator. *)
Lemma generate_readme_content_returns now stats :
  is_number (ranking stats) = true ->
  count_ok (easy_solved stats) = true ->
  count_ok (medium_solved stats) = true ->
  count_ok (hard_solved stats) = true ->
  exists content, generate_readme_content now stats = Ok content.
Proof.
  intros Hr He Hm Hh. unfold generate_readme_content.
  destruct (count_ok_bar _ 830 20 He ltac:(lia) ltac:(lia)) as [b1 ->].
  destruct (count_ok_bar _ 1750 20 Hm ltac:(lia) ltac:(lia)) as [b2 ->].
  destruct (count_ok_bar _ 750 20 Hh ltac:(lia) ltac:(lia)) as [b3 ->].
  destruct (format_grouped_number _ Hr) as [text ->].
  cbn [bind]. eauto.
Qed.

Lemma generate_readme_content_raises now stats e :
  generate_readme_content now stats = Raise e ->
  e = TypeError \/ e = OverflowError \/ e = ValueError.
Proof.
  unfold generate_readme_content. intros H.
  apply bind_raise in H as [H | (b1 & _ & H)];
    [now apply create_progress_bar_raises in H |].
  apply bind_raise in H as [H | (b2 & _ & H)];
    [now apply create_progress_bar_raises in H |].
  apply bind_raise in H as [H | (b3 & _ & H)];
    [now apply create_progress_bar_raises in H |].
  apply bind_raise in H as [H | (text & _ & H)]; [| discriminate].
  destruct (ranking stats); cbn in H; try discriminate;
    injection H as <-; auto.
Qed.

End RenderFacts.

(** ** The paths of the orchestrator *)

Module MainFacts.
Import Shape Run ExtractFacts RunFacts Typical ExtractEdge RenderFacts Scenario.

(** [main] along each of its paths. *)
Lemma main_cases w :
  main w =
  match environ w with
  | None => (1, print_all guidance w)
  | Some username =>
      if missing (Some username) then (1, print_all guidance w)
      else
        match read_reply (reply_to username w) with
        | Raise e => (1, print_error e (after_post username (announce username w)))
        | Ok raw =>
            match parse_stats raw with
            | Raise e => (1, print_error e (after_post username (announce username w)))
            | Ok stats =>
                match generate_readme_content (clock w) stats with
                | Raise e => (1, print_error e (before_write username stats w))
                | Ok content =>
                    match update_readme content "README.md"
                                        (before_write username stats w) with
                    | (Ok _, w') => (0, w')
                    | (Raise e, w') => (1, print_error e w')
                    end
                end
            end
        end
  end.
Proof.
  destruct (environ w) as [username |] eqn:He;
    [| unfold main; now rewrite He].
  destruct (missing (Some username)) eqn:Hm;
    [unfold main; now rewrite He, Hm |].
  rewrite (main_unfold username w He Hm), run_stages_unfold.
  change (reply_to username (announce username w)) with (reply_to username w).
  change (clock (announce username w)) with (clock w).
  destruct (read_reply (reply_to username w)) as [raw | e]; [| reflexivity].
  destruct (parse_stats raw) as [stats | e]; [| reflexivity].
  destruct (generate_readme_content (clock w) stats); reflexivity.
Qed.

Lemma update_readme_cases content path w :
  update_readme content path w =
  match mode w path with
  | CanWrite =>
      (Ok tt, say "âœ… README.md updated successfully!" (write_file path content w))
  | OpenFails => (Raise OSError, w)
  | WriteFails => (Raise OSError, write_file path "" w)
  end.
Proof. unfold update_readme. now destruct (mode w path). Qed.

Lemma write_file_elsewhere path content w p :
  p <> path -> files (write_file path content w) p = files w p.
Proof.
  intros Hp. cbn. apply String.eqb_neq in Hp. now rewrite Hp.
Qed.

Lemma write_file_there path content w :
  files (write_file path content w) path = Some content.
Proof. cbn. now rewrite String.eqb_refl. Qed.

Lemma main_elsewhere w p :
  p <> "README.md" -> files (snd (main w)) p = files w p.
Proof.
  intros Hp. rewrite main_cases.
  destruct (environ w) as [username |]; [| reflexivity].
  destruct (missing (Some username)); [reflexivity |].
  destruct (read_reply (reply_to username w)) as [raw | e]; [| reflexivity].
  destruct (parse_stats raw) as [stats | e]; [| reflexivity].
  destruct (generate_readme_content (clock w) stats) as [content | e];
    [| reflexivity].
  rewrite update_readme_cases.
  change (mode (before_write username stats w)) with (mode w).
  destruct (mode w "README.md"); cbn [snd]; try reflexivity.
  - unfold say, print. cbn [snd files print_error].
    now rewrite write_file_elsewhere.
  - cbn [files print_error]. now rewrite write_file_elsewhere.
Qed.

Lemma main_sent w :
  sent (snd (main w)) =
  match environ w with
  | None => sent w
  | Some username =>
      if missing (Some username) then sent w
      else (sent w ++ [make_request username])%list
  end.
Proof.
  rewrite main_cases.
  destruct (environ w) as [username |]; [| reflexivity].
  destruct (missing (Some username)); [reflexivity |].
  destruct (read_reply (reply_to username w)) as [raw | e]; [| reflexivity].
  destruct (parse_stats raw) as [stats | e]; [| reflexivity].
  destruct (generate_readme_content (clock w) stats) as [content | e];
    [| reflexivity].
  rewrite update_readme_cases.
  change (mode (before_write username stats w)) with (mode w).
  destruct (mode w "README.md"); reflexivity.
Qed.

Lemma main_success w username raw stats content :
  environ w = Some username -> missing (Some username) = false ->
  read_reply (reply_to username w) = Ok raw ->
  parse_stats raw = Ok stats ->
  generate_readme_content (clock w) stats = Ok content ->
  mode w "README.md" = CanWrite ->
  main w = (0, say "âœ… README.md updated successfully!"
                 (write_file "README.md" content (before_write username stats w))).
Proof.
  intros He Hm H1 H2 H3 Hw.
  rewrite main_cases, He, Hm, H1, H2, H3, update_readme_cases.
  change (mode (before_write username stats w)) with (mode w).
  now rewrite Hw.
Qed.

Lemma main_zero w :
  fst (main w) = 0 ->
  exists username,
    environ w = Some username /\ missing (Some username) = false /\
    stages_succeed username w /\ mode w "README.md" = CanWrite.
Proof.
  rewrite main_cases. unfold stages_succeed.
  destruct (environ w) as [username |]; [| discriminate].
  destruct (missing (Some username)) eqn:Hm; [discriminate |].
  destruct (read_reply (reply_to username w)) as [raw | e] eqn:H1; [| discriminate].
  destruct (parse_stats raw) as [stats | e] eqn:H2; [| discriminate].
  destruct (generate_readme_content (clock w) stats) as [content | e] eqn:H3;
    [| discriminate].
  rewrite update_readme_cases.
  change (mode (before_write username stats w)) with (mode w).
  destruct (mode w "README.md") eqn:Hw; try discriminate.
  intros _. exists username. repeat split; try assumption.
  exists raw, stats, content. auto.
Qed.

Lemma main_zero_or_one w : fst (main w) = 0 \/ fst (main w) = 1.
Proof.
  rewrite main_cases.
  destruct (environ w) as [username |]; [| auto].
  destruct (missing (Some username)); [auto |].
  destruct (read_reply (reply_to username w)) as [raw | e]; [| auto].
  destruct (parse_stats raw) as [stats | e]; [| auto].
  destruct (generate_readme_content (clock w) stats) as [content | e]; [| auto].
  destruct (update_readme _ _ _) as [[u | e] w']; auto.
Qed.

End MainFacts.

Import BarExact BarEdge BarExactFacts BarNegative Typical ExtractEdge RenderFacts
  Scenario MainFacts.

(** * Further properties of the code *)

(** X1.  The bar generator raises nothing but [TypeError] (a count that is
    not a number), [OverflowError] (a value outside the floats) and
    [ValueError] (a NaN count); the guard on [total] rules out a division
    by zero. *)
Theorem bar_raises_only (solved : pyval) (total length : Z) (e : exn) :
  create_progress_bar solved total length = Raise e ->
  e = TypeError \/ e = OverflowError \/ e = ValueError.
Proof. apply create_progress_bar_raises. Qed.

Lemma bar_raises_only_witness :
  create_progress_bar (PStr "many") 830 20 = Raise TypeError /\
  (TypeError = TypeError \/ TypeError = OverflowError \/ TypeError = ValueError).
Proof.
  split; [reflexivity |].
  apply (bar_raises_only (PStr "many") 830 20 TypeError). reflexivity.
Defined.

(** X2.  With a total that is not positive the count is never looked at:
    whatever it is, the bar is all empty and labelled 0.0%. *)
Theorem bar_without_total (solved : pyval) (total length : Z) :
  total <= 0 ->
  create_progress_bar solved total length
  = Ok ("`" ++ str_mul glyph_empty length ++ "` 0.0%").
Proof. apply create_progress_bar_no_total. Qed.

Lemma bar_without_total_witness :
  0 <= 0 /\
  create_progress_bar PNone 0 20 = Ok ("`" ++ str_mul glyph_empty 20 ++ "` 0.0%").
Proof.
  split; [lia |]. apply (bar_without_total PNone 0 20). lia.
Defined.

(** X3.  For a non-negative int count and a positive total the generator
    returns a bar exactly when the quotient is below [2^1024 - 2^970];
    from there on it raises [OverflowError]. *)
Theorem bar_returns_iff (solved total length : Z) :
  0 <= solved -> 0 < total -> 0 < length <= 2 ^ 53 ->
  ((exists bar, create_progress_bar (PInt solved) total length = Ok bar)
   <-> solved < (2 ^ 1024 - 2 ^ 970) * total)
  /\ ((2 ^ 1024 - 2 ^ 970) * total <= solved ->
      create_progress_bar (PInt solved) total length = Raise OverflowError).
Proof.
  intros Hs Ht Hl. split; [split |].
  - intros [bar Hb].
    destruct (Z_lt_le_dec solved ((2 ^ 1024 - 2 ^ 970) * total)) as [| Hge];
      [assumption |].
    rewrite (create_progress_bar_overflow _ _ length Ht Hge) in Hb.
    discriminate.
  - intros Hlt. exists (BarSpec.bar solved total length).
    apply create_progress_bar_int; [assumption | assumption | now right].
  - now apply create_progress_bar_overflow.
Qed.

Lemma bar_returns_iff_witness :
  0 <= 2 ^ 1024 /\ 0 < 1 /\ 0 < 20 <= 2 ^ 53 /\
  (2 ^ 1024 - 2 ^ 970) * 1 <= 2 ^ 1024 /\
  create_progress_bar (PInt (2 ^ 1024)) 1 20 = Raise OverflowError.
Proof.
  assert (H0 : 0 <= 2 ^ 1024) by (vm_compute; discriminate).
  assert (H1 : 0 < 1) by lia.
  assert (H2 : 0 < 20 <= 2 ^ 53) by lia.
  assert (H3 : (2 ^ 1024 - 2 ^ 970) * 1 <= 2 ^ 1024) by (vm_compute; discriminate).
  split; [exact H0 |]. split; [exact H1 |]. split; [exact H2 |].
  split; [exact H3 |].
  exact (proj2 (bar_returns_iff (2 ^ 1024) 1 20 H0 H1 H2) H3).
Defined.

(** X4.  With the three denominators of the renderer and its width of 20
    the float arithmetic loses nothing: the bar has exactly
    [floor(20 * min(solved, total) / total)] filled glyphs and the rest of
    the 20 empty. *)
Theorem bar_exact_in_readme (solved total : Z) :
  total = 830 \/ total = 1750 \/ total = 750 ->
  0 <= solved -> solved < (2 ^ 1024 - 2 ^ 970) * total ->
  exists bar,
    create_progress_bar (PInt solved) total 20 = Ok bar /\
    Z.of_nat (occurrences glyph_filled bar) = exact_filled solved total 20 /\
    Z.of_nat (occurrences glyph_empty bar) = 20 - exact_filled solved total 20.
Proof.
  intros Htotal Hs Hr.
  assert (Hall : forallb (ends_agree total) widths = true).
  { destruct Htotal as [-> | [-> | ->]];
      [apply ends_agree_830 | apply ends_agree_1750 | apply ends_agree_750]. }
  assert (Ht : 0 < total) by lia.
  exists (BarSpec.bar solved total 20).
  pose proof (filled_bounds solved total 20 Hs ltac:(lia)) as Hb.
  rewrite bar_filled_glyphs, bar_empty_glyphs.
  rewrite <- (filled_exact total solved Hall Ht Hs).
  split; [| split; lia].
  apply create_progress_bar_int; [assumption | lia | now right].
Qed.

Lemma bar_exact_in_readme_witness :
  (830 = 830 \/ 830 = 1750 \/ 830 = 750) /\ 0 <= 581 /\
  581 < (2 ^ 1024 - 2 ^ 970) * 830 /\
  exists bar,
    create_progress_bar (PInt 581) 830 20 = Ok bar /\
    Z.of_nat (occurrences glyph_filled bar) = exact_filled 581 830 20 /\
    Z.of_nat (occurrences glyph_empty bar) = 20 - exact_filled 581 830 20.
Proof.
  assert (H0 : 830 = 830 \/ 830 = 1750 \/ 830 = 750) by (left; reflexivity).
  assert (H1 : 0 <= 581) by lia.
  assert (H2 : 581 < (2 ^ 1024 - 2 ^ 970) * 830) by reflexivity.
  split; [exact H0 |]. split; [exact H1 |]. split; [exact H2 |].
  exact (bar_exact_in_readme 581 830 H0 H1 H2).
Defined.

(** X5.  A negative count is not rejected: down to [-total] the bar has
    no filled glyph and between [length] and [2 * length] empty ones, so
    it is wider than asked. *)
Theorem bar_of_negative_count (solved total length : Z) :
  0 < total -> - total <= solved < 0 -> 0 < length <= 2 ^ 53 ->
  exists bar,
    create_progress_bar (PInt solved) total length = Ok bar /\
    occurrences glyph_filled bar = O /\
    length <= Z.of_nat (occurrences glyph_empty bar) <= 2 * length.
Proof.
  intros Ht Hs Hl.
  destruct (create_progress_bar_negative solved total length Ht Hs Hl)
    as (extra & label & He & Hp & ->).
  eexists. split; [reflexivity |].
  assert (Htail : plain ("` " ++ label ++ "%") = true)
    by (rewrite !plain_app, Hp; reflexivity).
  unfold str_mul.
  rewrite (count_filled _ _ _ Htail), (count_empty _ _ _ Htail).
  split; lia.
Qed.

Lemma bar_of_negative_count_witness :
  0 < 830 /\ - 830 <= -300 < 0 /\ 0 < 20 <= 2 ^ 53 /\
  exists bar,
    create_progress_bar (PInt (-300)) 830 20 = Ok bar /\
    occurrences glyph_filled bar = O /\
    20 <= Z.of_nat (occurrences glyph_empty bar) <= 2 * 20.
Proof.
  assert (H0 : 0 < 830) by lia.
  assert (H1 : - 830 <= -300 < 0) by lia.
  assert (H2 : 0 < 20 <= 2 ^ 53) by lia.
  split; [exact H0 |]. split; [exact H1 |]. split; [exact H2 |].
  exact (bar_of_negative_count (-300) 830 20 H0 H1 H2).
Defined.

(** X6.  The extractor raises nothing but [AttributeError] ([.get] on a
    value that is not an object) and [TypeError] (a loop over or a round
    of a value of the wrong type). *)
Theorem extractor_raises_only (data : pyval) (e : exn) :
  parse_stats data = Raise e -> e = AttributeError \/ e = TypeError.
Proof. apply parse_stats_raises. Qed.

Lemma extractor_raises_only_witness :
  parse_stats Sample.text_percentile = Raise TypeError /\
  (TypeError = AttributeError \/ TypeError = TypeError).
Proof.
  split; [reflexivity |].
  apply (extractor_raises_only Sample.text_percentile TypeError). reflexivity.
Defined.

(** X7.  The default [{}] stands in for a missing [matchedUser] only: when
    the key is present with a value that is not an object (null for an
    unknown user), the extractor raises [AttributeError] whatever else the
    reply holds. *)
Theorem extractor_rejects_user (entries : list (string * pyval)) (user : pyval) :
  lookup "matchedUser" entries = Some user -> is_dict user = false ->
  parse_stats (PDict entries) = Raise AttributeError.
Proof. apply parse_stats_user_not_dict. Qed.

Lemma extractor_rejects_user_witness :
  lookup "matchedUser" [("matchedUser", PNone); ("userContestRanking", PNone)]
  = Some PNone /\
  is_dict PNone = false /\
  parse_stats (PDict [("matchedUser", PNone); ("userContestRanking", PNone)])
  = Raise AttributeError.
Proof.
  split; [reflexivity |]. split; [reflexivity |].
  apply (extractor_rejects_user _ PNone); reflexivity.
Defined.

(** X8.  In a record the extractor returns, the user name and the ranking
    are the upstream values as they came, of whatever type, and ["N/A"]
    when the key (or the object holding it) is absent; the loop and the
    contest block leave them alone. *)
Theorem extractor_identity_fields (data : pyval) (stats : StatsRecord) :
  parse_stats data = Ok stats ->
  username stats
  = field (field data "matchedUser" (PDict [])) "username" (PStr "N/A")
  /\ ranking stats
     = field (field (field data "matchedUser" (PDict [])) "profile" (PDict []))
             "ranking" (PStr "N/A").
Proof. apply parse_stats_identity. Qed.

Lemma extractor_identity_fields_witness :
  parse_stats Sample.canned = Ok Sample.canned_stats /\
  username Sample.canned_stats = PStr "alice" /\
  ranking Sample.canned_stats = PInt 123456.
Proof.
  split; [exact canned_parsed |].
  exact (extractor_identity_fields Sample.canned Sample.canned_stats canned_parsed).
Defined.

Lemma render_needs_numeric_ranking_witness :
  ranking Scenario.defaults = PStr "N/A" /\
  generate_readme_content "" Scenario.defaults <> Ok "".
Proof.
  split; [reflexivity |].
  apply (render_needs_numeric_ranking "" Scenario.defaults "N/A" ""). reflexivity.
Defined.

(** X10.  The renderer returns a document as soon as the ranking is a
    number and the three difficulty counts are non-negative ints below
    [2^1000]; the other fields may hold anything. *)
Theorem render_returns_on_numbers (now : string) (stats : StatsRecord) :
  is_number (ranking stats) = true ->
  count_ok (easy_solved stats) = true ->
  count_ok (medium_solved stats) = true ->
  count_ok (hard_solved stats) = true ->
  exists content, generate_readme_content now stats = Ok content.
Proof. apply generate_readme_content_returns. Qed.

Lemma render_returns_on_numbers_witness :
  is_number (ranking Sample.canned_stats) = true /\
  count_ok (easy_solved Sample.canned_stats) = true /\
  count_ok (medium_solved Sample.canned_stats) = true /\
  count_ok (hard_solved Sample.canned_stats) = true /\
  exists content, generate_readme_content "" Sample.canned_stats = Ok content.
Proof.
  assert (H1 : count_ok (easy_solved Sample.canned_stats) = true) by reflexivity.
  assert (H2 : count_ok (medium_solved Sample.canned_stats) = true) by reflexivity.
  assert (H3 : count_ok (hard_solved Sample.canned_stats) = true) by reflexivity.
  split; [reflexivity |]. split; [exact H1 |]. split; [exact H2 |].
  split; [exact H3 |].
  exact (render_returns_on_numbers "" Sample.canned_stats eq_refl H1 H2 H3).
Defined.

(** X11.  The renderer raises nothing but [TypeError], [OverflowError] and
    [ValueError]. *)
Theorem render_raises_only (now : string) (stats : StatsRecord) (e : exn) :
  generate_readme_content now stats = Raise e ->
  e = TypeError \/ e = OverflowError \/ e = ValueError.
Proof. apply generate_readme_content_raises. Qed.

Lemma defaults_do_not_render :
  generate_readme_content "" Scenario.defaults = Raise ValueError.
Proof. vm_compute. reflexivity. Qed.

Lemma render_raises_only_witness :
  generate_readme_content "" Scenario.defaults = Raise ValueError /\
  (ValueError = TypeError \/ ValueError = OverflowError \/ ValueError = ValueError).
Proof.
  split; [exact defaults_do_not_render |].
  exact (render_raises_only "" _ ValueError defaults_do_not_render).
Defined.

(** X12.  When the three stages return and the file can be written, [main]
    returns 0, [README.md] holds exactly the rendered text, whatever it
    held before, the path has been opened once, and the five progress
    lines have been printed. *)
Theorem main_success_writes_rendering
    (w : World) (username : string) (raw : pyval) (stats : StatsRecord)
    (content : string) :
  environ w = Some username -> missing (Some username) = false ->
  read_reply (reply_to username w) = Ok raw ->
  parse_stats raw = Ok stats ->
  generate_readme_content (clock w) stats = Ok content ->
  mode w "README.md" = CanWrite ->
  fst (main w) = 0 /\
  files (snd (main w)) "README.md" = Some content /\
  opened (snd (main w)) = (opened w ++ ["README.md"])%list /\
  stdout (snd (main w)) = (stdout w ++ Scenario.success_lines username stats)%list.
Proof.
  intros He Hm H1 H2 H3 Hw.
  rewrite (main_success w username raw stats content He Hm H1 H2 H3 Hw).
  split; [reflexivity |]. split; [reflexivity |]. split; [reflexivity |].
  cbn. rewrite <- !app_assoc. reflexivity.
Qed.

(** X13.  The exit status is 0 or 1, and it is 0 exactly when the user
    name is set, the three stages return and the file can be written. *)
Theorem main_exit_status (w : World) :
  (fst (main w) = 0 \/ fst (main w) = 1)
  /\ (fst (main w) = 0 <->
      exists username,
        environ w = Some username /\ missing (Some username) = false /\
        stages_succeed username w /\ mode w "README.md" = CanWrite).
Proof.
  split; [apply main_zero_or_one |]. split; [apply main_zero |].
  intros (username & He & Hm & (raw & stats & content & H1 & H2 & H3) & Hw).
  now rewrite (main_success w username raw stats content He Hm H1 H2 H3 Hw).
Qed.

(** X14.  [main] touches no file but [README.md]. *)
Theorem main_touches_only_readme (w : World) (path : string) :
  path <> "README.md" -> files (snd (main w)) path = files w path.
Proof. apply main_elsewhere. Qed.

Lemma main_touches_only_readme_witness :
  "notes.txt" <> "README.md" /\
  files (snd (main (Sample.world (Some "alice") Scenario.good_reply))) "notes.txt"
  = Some "previous".
Proof.
  assert (H : "notes.txt" <> "README.md") by discriminate.
  split; [exact H |].
  exact (main_touches_only_readme
           (Sample.world (Some "alice") Scenario.good_reply) "notes.txt" H).
Defined.

(** X15.  A run sends no request when the user name is missing and exactly
    one otherwise, however the run ends. *)
Theorem main_sends_one_request (w : World) :
  sent (snd (main w)) =
  match environ w with
  | None => sent w
  | Some username =>
      if missing (Some username) then sent w
      else (sent w ++ [make_request username])%list
  end.
Proof. apply main_sent. Qed.

(** X16.  On a 200 reply without [errors] whose data is typical, with a
    writable output file, the whole run succeeds: exit status 0 and the
    rendering of the extracted record in [README.md]. *)
Theorem typical_run_succeeds
    (w : World) (username : string) (entries : list (string * pyval))
    (data : pyval) :
  environ w = Some username -> missing (Some username) = false ->
  reply_to username w = Response 200 (Some (PDict entries)) ->
  lookup "errors" entries = None -> lookup "data" entries = Some data ->
  typical data = true -> mode w "README.md" = CanWrite ->
  exists stats content,
    parse_stats data = Ok stats /\
    generate_readme_content (clock w) stats = Ok content /\
    fst (main w) = 0 /\
    files (snd (main w)) "README.md" = Some content.
Proof.
  intros He Hm Hreply Herr Hdata Htyp Hw.
  unfold typical in Htyp.
  apply andb_true_iff in Htyp as [Htyp Hcounts].
  apply andb_true_iff in Htyp as [Hshape Hrank].
  destruct (parse_stats_total data Hshape) as [stats Hparse].
  destruct (parse_stats_counts_ok data stats Hcounts Hparse) as (C1 & C2 & C3).
  destruct (parse_stats_identity data stats Hparse) as [_ Hr].
  rewrite <- Hr in Hrank.
  destruct (generate_readme_content_returns (clock w) stats Hrank C1 C2 C3)
    as [content Hrender].
  assert (Hread : read_reply (reply_to username w) = Ok data).
  { apply read_reply_ok. exists entries. auto. }
  exists stats, content.
  rewrite (main_success w username data stats content He Hm Hread Hparse Hrender Hw).
  repeat split; assumption.
Qed.

Lemma plain_parsed : parse_stats Scenario.plain_data = Ok Scenario.plain_stats.
Proof. reflexivity. Qed.

Lemma plain_rendered :
  generate_readme_content "2024-01-01 00:00:00 UTC" Scenario.plain_stats
  = Ok Scenario.plain_document.
Proof. vm_compute. reflexivity. Qed.

Lemma main_success_writes_rendering_witness :
  let w := Sample.world (Some "alice") Scenario.good_reply in
  environ w = Some "alice" /\ missing (Some "alice") = false /\
  read_reply (reply_to "alice" w) = Ok Scenario.plain_data /\
  parse_stats Scenario.plain_data = Ok Scenario.plain_stats /\
  generate_readme_content (clock w) Scenario.plain_stats
  = Ok Scenario.plain_document /\
  mode w "README.md" = CanWrite /\
  fst (main w) = 0 /\
  files (snd (main w)) "README.md" = Some Scenario.plain_document.
Proof.
  intros w.
  assert (H1 : read_reply (reply_to "alice" w) = Ok Scenario.plain_data)
    by reflexivity.
  destruct (main_success_writes_rendering
              w "alice" Scenario.plain_data Scenario.plain_stats
              Scenario.plain_document
              eq_refl eq_refl H1 plain_parsed plain_rendered eq_refl)
    as (E0 & E1 & _).
  split; [reflexivity |]. split; [reflexivity |]. split; [exact H1 |].
  split; [exact plain_parsed |]. split; [exact plain_rendered |].
  split; [reflexivity |]. split; [exact E0 | exact E1].
Defined.

Lemma typical_run_succeeds_witness :
  let w := Sample.world (Some "alice") Scenario.good_reply in
  environ w = Some "alice" /\ missing (Some "alice") = false /\
  reply_to "alice" w = Response 200 (Some (PDict [("data", Scenario.plain_data)])) /\
  typical Scenario.plain_data = true /\ mode w "README.md" = CanWrite /\
  exists stats content,
    parse_stats Scenario.plain_data = Ok stats /\
    generate_readme_content (clock w) stats = Ok content /\
    fst (main w) = 0 /\
    files (snd (main w)) "README.md" = Some content.
Proof.
  intros w.
  assert (Ht : typical Scenario.plain_data = true) by reflexivity.
  split; [reflexivity |]. split; [reflexivity |]. split; [reflexivity |].
  split; [exact Ht |]. split; [reflexivity |].
  exact (typical_run_succeeds w "alice" [("data", Scenario.plain_data)]
           Scenario.plain_data eq_refl eq_refl eq_refl eq_refl eq_refl Ht eq_refl).
Defined.

(** * Checks of the model *)

(** The end-to-end test of the specification: the rows of the canned
    reply appear in the document. *)
Example canned_rows :
  forallb (fun row => negb (Nat.eqb (occurrences row Scenario.canned_document) 0))
          ["**500**"; "| 300 |"; "| 150 |"; "| 50 |"; "| 1850.46 |"; "| 12 |";
           "| 15.68% |"; "#123,456 |"; "36.1% |"]
  = true.
Proof. vm_compute. reflexivity. Qed.

(** Binary64 at work: 29 of 100 on a bar of 100 fills 28 glyphs, because
    [100 * (29 / 100)] is just below 29 as a float, while the label
    rounds to 29.0. *)
Example float_truncation :
  BarSpec.filled 29 100 100 = 28 /\ BarSpec.label 29 100 = "29.0".
Proof. vm_compute. split; reflexivity. Qed.

(** The division and the product of this development give, on a sample of
    quotients, the very doubles the standard library's [SpecFloat] gives. *)
Example agrees_with_SpecFloat :
  forallb CrossCheck.same_quotient
          [(29, 100); (1, 3); (581, 830); (300, 830); (150, 1750); (50, 750);
           (2 ^ 1000, 3); (-7, 9); (123456789, 1000); (1, 2 ^ 1023);
           (1, 3 * 2 ^ 1022); (5, 7 * 2 ^ 1020); (2 ^ 1023, 1)]
  && forallb CrossCheck.same_product
          [(29, 100); (1, 3); (581, 830); (7, 10); (99, 100)]
  = true.
Proof. vm_compute. reflexivity. Qed.
